(** * isone_web_api: a shallow embedding of the ISO-NE client and its
    response parser, with the properties of its behaviour.

    The development follows the package layout:
    - [Py]            the Python values and exceptions the package works with;
    - [Pandas]        the two pandas entry points [json_parser.py] calls;
    - [JsonParser]    [isone_web_api/json_parser.py];
    - [Datetime]      [datetime.strptime] / [strftime] for the pattern [%Y%m%d];
    - [Str]           [repr] and [str.format];
    - [EndpointPaths] [isone_web_api/endpoint_paths.py];
    - [ApiClient]     [isone_web_api/api_client.py];
    - [Endpoints]     [isone_web_api/endpoints.py]. *)

From Stdlib Require Import String Ascii List ZArith Bool Lia SpecFloat.
Import ListNotations.

Local Open Scope list_scope.
Local Open Scope string_scope.

(* ================================================================== *)
(** * Python values, truthiness and exceptions *)
(* ================================================================== *)

Module Py.

(** A decoded JSON document, as [response.json()] hands it to the parser.
    A [dict] keeps its insertion order, so it is an association list; the
    lists that stand for dicts have pairwise distinct keys.  A number is
    an [int] or a [float] (a binary64 value). *)
#[local] Unset Elimination Schemes.
Inductive json : Type :=
| JNull
| JBool (b : bool)
| JInt (n : Z)
| JFloat (f : spec_float)
| JStr (s : string)
| JList (items : list json)
| JDict (items : list (string * json)).
#[local] Set Elimination Schemes.

(** Induction principle that reaches below lists and dicts. *)
Fixpoint json_nested_ind (P : json -> Prop)
    (Hnull : P JNull)
    (Hbool : forall b, P (JBool b))
    (Hint : forall n, P (JInt n))
    (Hfloat : forall f, P (JFloat f))
    (Hstr : forall s, P (JStr s))
    (Hlist : forall l, Forall P l -> P (JList l))
    (Hdict : forall d, Forall (fun kv => P (snd kv)) d -> P (JDict d))
    (j : json) {struct j} : P j :=
  match j with
  | JNull => Hnull
  | JBool b => Hbool b
  | JInt n => Hint n
  | JFloat f => Hfloat f
  | JStr s => Hstr s
  | JList l =>
      Hlist l
        ((fix all (l : list json) : Forall P l :=
            match l with
            | [] => Forall_nil P
            | x :: r =>
                Forall_cons x
                  (json_nested_ind P Hnull Hbool Hint Hfloat Hstr Hlist Hdict x)
                  (all r)
            end) l)
  | JDict d =>
      Hdict d
        ((fix all (d : list (string * json))
            : Forall (fun kv => P (snd kv)) d :=
            match d with
            | [] => Forall_nil _
            | kv :: r =>
                Forall_cons kv
                  (json_nested_ind P Hnull Hbool Hint Hfloat Hstr Hlist Hdict (snd kv))
                  (all r)
            end) d)
  end.

(** [bool(x)]: [None], [False], [0], [0.0], [-0.0], [""], [[]] and [{}]
    are falsy. *)
Definition truthy (x : json) : bool :=
  match x with
  | JNull => false
  | JBool b => b
  | JInt n => negb (Z.eqb n 0)
  | JFloat f => match f with S754_zero _ => false | _ => true end
  | JStr s => negb (String.eqb s "")
  | JList l => match l with [] => false | _ :: _ => true end
  | JDict d => match d with [] => false | _ :: _ => true end
  end.

(** [type(x).__name__], as it appears in an [AttributeError]. *)
Definition type_name (x : json) : string :=
  match x with
  | JNull => "NoneType"
  | JBool _ => "bool"
  | JInt _ => "int"
  | JFloat _ => "float"
  | JStr _ => "str"
  | JList _ => "list"
  | JDict _ => "dict"
  end.

Definition is_list (x : json) : bool :=
  match x with JList _ => true | _ => false end.

Definition is_dict (x : json) : bool :=
  match x with JDict _ => true | _ => false end.

(** The exception classes the package raises or lets through. *)
Inductive exn : Type :=
| KeyError (arg : string)
| TypeError (msg : string)
| ValueError (msg : string)
| AttributeError (msg : string)
| IndexError (msg : string)
| RuntimeError (msg : string)
| HTTPError (status_code : Z)
| ConnectionError (msg : string)
| JSONDecodeError (msg : string).

(** What a call does: it returns, it raises, or it leaves the part of a
    library this development describes. *)
Inductive outcome (A : Type) : Type :=
| Return (a : A)
| Raise (e : exn)
| Unmodelled.

Arguments Return {A} a.
Arguments Raise {A} e.
Arguments Unmodelled {A}.

Definition bind {A B : Type} (m : outcome A) (k : A -> outcome B)
  : outcome B :=
  match m with
  | Return a => k a
  | Raise e => Raise e
  | Unmodelled => Unmodelled
  end.

(** ** dict operations *)

Definition dict : Type := list (string * json).

(** [key in d] / [d[key]]: the entry of [key], if any. *)
Fixpoint dict_lookup (d : dict) (key : string) : option json :=
  match d with
  | [] => None
  | (k, v) :: rest => if String.eqb k key then Some v else dict_lookup rest key
  end.

(** [d[key] = value]: an existing key keeps its position. *)
Fixpoint dict_set (d : dict) (key : string) (value : json) : dict :=
  match d with
  | [] => [(key, value)]
  | (k, v) :: rest =>
      if String.eqb k key then (k, value) :: rest
      else (k, v) :: dict_set rest key value
  end.

Definition keys (d : dict) : list string := map fst d.

(** [x.get(key, default)]: only a dict has the method. *)
Definition get (x : json) (key : string) (default : json) : outcome json :=
  match x with
  | JDict d =>
      Return (match dict_lookup d key with Some v => v | None => default end)
  | other =>
      Raise (AttributeError
               ("'" ++ type_name other ++ "' object has no attribute 'get'"))
  end.

(** ** str and int *)

(** Strings are sequences of characters below U+0100; among them the
    decimal digits are ['0'] to ['9']. *)
Definition in_range (lo hi c : ascii) : bool :=
  (nat_of_ascii lo <=? nat_of_ascii c)%nat
  && (nat_of_ascii c <=? nat_of_ascii hi)%nat.

Definition is_digit (c : ascii) : bool := in_range "0" "9" c.

Definition digit_val (c : ascii) : Z := (Z.of_nat (nat_of_ascii c) - 48)%Z.

Definition digit_char (n : Z) : ascii := ascii_of_nat (Z.to_nat (48 + n)).

Fixpoint all_chars (p : ascii -> bool) (s : string) : bool :=
  match s with
  | EmptyString => true
  | String c s' => p c && all_chars p s'
  end.

(** The number a run of digits stands for, after the digits of [acc]. *)
Fixpoint int_of_digits (acc : Z) (s : string) : Z :=
  match s with
  | EmptyString => acc
  | String c s' => int_of_digits (10 * acc + digit_val c)%Z s'
  end.

(** [int(text)] for a text of digits, after an optional blank. *)
Definition int (text : string) : Z :=
  match text with
  | String c s' =>
      if Ascii.eqb c " " then int_of_digits 0 s' else int_of_digits 0 text
  | EmptyString => 0%Z
  end.

(** The decimal digits of a natural number ([fuel] bounds their count). *)
Fixpoint digits_of (fuel : nat) (n : Z) (acc : string) : string :=
  match fuel with
  | O => acc
  | S fuel' =>
      let acc' := String (digit_char (n mod 10)%Z) acc in
      if (n <? 10)%Z then acc' else digits_of fuel' (n / 10)%Z acc'
  end.

(** [str(n)] for an [int]. *)
Definition str_of_int (n : Z) : string :=
  if (n <? 0)%Z then "-" ++ digits_of (S (Z.to_nat (Z.log2 (- n)))) (- n) ""
  else digits_of (S (Z.to_nat (Z.log2 n))) n "".

End Py.

Import Py.

(* ================================================================== *)
(** * pandas: the two entry points the parser calls *)
(* ================================================================== *)

Module Pandas.

(** A cell of a frame, described by what it is computed from.  pandas
    converts each assembled column to one dtype ([convert_object_array]):
    beside a [NaN] an [int] becomes a [float] ([3] is shown as [3.0], and
    is rounded above [2^53]), and [None] becomes [NaN] in a numeric
    column.  That conversion is not modelled.  [From v] is the cell
    pandas computes from the value [v] of the record, whatever the dtype
    of its column makes of it; [NaN] is the cell of a record that has no
    such field. *)
Inductive cell : Type :=
| NaN
| From (v : json).

(** A frame with string column labels and the default [RangeIndex]: the
    rows in order, each aligned with [columns]. *)
Record DataFrame : Type := mkDataFrame {
  columns : list string;
  rows : list (list cell)
}.

Definition nrows (df : DataFrame) : nat := length (rows df).

(** [DataFrame()]: no rows, no columns. *)
Definition empty_frame : DataFrame := mkDataFrame [] [].

Definition mem (k : string) (l : list string) : bool :=
  existsb (String.eqb k) l.

(** [lib.fast_unique_multiple_list_gen(gen, sort=False)]: the keys of all
    records, each once, in the order they are first seen. *)
Definition add_unique (uniques : list string) (k : string) : list string :=
  if mem k uniques then uniques else (uniques ++ [k])%list.

Definition fast_unique_multiple_list_gen (gen : list (list string))
  : list string :=
  fold_left (fun uniques ks => fold_left add_unique ks uniques) gen [].

(** [lib.dicts_to_array(data, columns)]: row [i] is filled from
    [data[i][k]] for every column [k] the record has and with [NaN] for
    the others. *)
Definition cell_of (record : dict) (k : string) : cell :=
  match dict_lookup record k with
  | Some v => From v
  | None => NaN
  end.

Definition dicts_to_array (data : list dict) (columns : list string)
  : list (list cell) :=
  map (fun record => map (cell_of record) columns) data.

(** [DataFrame(data)] for a list of dicts ([_list_of_dict_to_arrays]). *)
Definition frame_of_records (data : list dict) : DataFrame :=
  let columns := fast_unique_multiple_list_gen (map keys data) in
  mkDataFrame columns (dicts_to_array data columns).

(** [str.removeprefix]. *)
Definition removeprefix (prefix s : string) : string :=
  if String.prefix prefix s
  then String.substring (String.length prefix)
         (String.length s - String.length prefix) s
  else s.

(** [_normalise_json(data, key_string, normalized_dict, separator)]: the
    leaves below [data], keyed by the joined keys that lead to them.  A
    separator is not put in front of the first key. *)
Fixpoint _normalise_json (data : json) (key_string : string)
    (normalized_dict : dict) (separator : string) {struct data} : dict :=
  match data with
  | JDict items =>
      (fix loop (items : list (string * json)) (normalized_dict : dict)
         {struct items} : dict :=
         match items with
         | [] => normalized_dict
         | (key, value) :: rest =>
             let new_key := key_string ++ separator ++ key in
             let new_key :=
               if String.eqb key_string "" then removeprefix separator new_key
               else new_key in
             loop rest (_normalise_json value new_key normalized_dict separator)
         end) items normalized_dict
  | _ => dict_set normalized_dict key_string data
  end.

(** [{**a, **b}]. *)
Definition dict_merge (a b : dict) : dict :=
  fold_left (fun acc kv => dict_set acc (fst kv) (snd kv)) b a.

(** [_normalise_json_ordered(data, separator)]: the top-level fields that
    are not dicts first, then the flattened nested dicts.  The two
    comprehensions [{k: v for k, v in data.items() if ...}] select entries
    of [data] and keep their order. *)
Definition _normalise_json_ordered (data : dict) (separator : string) : dict :=
  let top_dict_ := filter (fun kv => negb (is_dict (snd kv))) data in
  let nested_dict_ :=
    _normalise_json (JDict (filter (fun kv => is_dict (snd kv)) data))
      "" [] separator in
  dict_merge top_dict_ nested_dict_.

(** The records of a list all of whose elements are dicts. *)
Fixpoint as_records (l : list json) : option (list dict) :=
  match l with
  | [] => Some []
  | JDict d :: rest =>
      match as_records rest with
      | Some ds => Some (d :: ds)
      | None => None
      end
  | _ :: _ => None
  end.

(** [_simple_json_normalize(ds)] for a list [ds], element by element: a
    dict is flattened with [_normalise_json_ordered], an element that is
    neither a dict nor a list gives [{}].  A list among the elements is
    normalised in turn and the result is no list of dicts: left out. *)
Fixpoint _simple_json_normalize (ds : list json) (sep : string)
  : option (list dict) :=
  match ds with
  | [] => Some []
  | row :: rest =>
      match row with
      | JList _ => None
      | JDict d =>
          match _simple_json_normalize rest sep with
          | Some rows => Some (_normalise_json_ordered d sep :: rows)
          | None => None
          end
      | _ =>
          match _simple_json_normalize rest sep with
          | Some rows => Some ([] :: rows)
          | None => None
          end
      end
  end.

(** [pd.json_normalize(data)] with the default arguments, for [data] a
    list.  An empty list gives [DataFrame()]; otherwise the frame is
    [DataFrame(_simple_json_normalize(data, sep="."))], one row per
    element. *)
Definition json_normalize (data : list json) : outcome DataFrame :=
  match data with
  | [] => Return empty_frame
  | _ :: _ =>
      match _simple_json_normalize data "." with
      | Some records => Return (frame_of_records records)
      | None => Unmodelled
      end
  end.

Definition is_scalar (x : json) : bool :=
  negb (is_list x) && negb (is_dict x).

(** [pd.DataFrame(data)] for the documents the parser passes whole:
    - [None], an empty list or an empty dict gives an empty frame;
    - a list of dicts gives one row per dict, nested values kept as they
      are (nothing is flattened);
    - a non-empty dict whose values are all scalars is refused
      ([_extract_index]: no value gives the frame a length);
    - a number, a boolean or a string is refused.
    Lists with other elements and dicts with a list or a dict among their
    values are left out. *)
Definition DataFrame_of (data : json) : outcome DataFrame :=
  match data with
  | JNull => Return empty_frame
  | JList [] => Return empty_frame
  | JList items =>
      match as_records items with
      | Some records => Return (frame_of_records records)
      | None => Unmodelled
      end
  | JDict [] => Return empty_frame
  | JDict items =>
      if forallb (fun kv => is_scalar (snd kv)) items
      then Raise (ValueError
                    "If using all scalar values, you must pass an index")
      else Unmodelled
  | _ => Raise (ValueError "DataFrame constructor not properly called!")
  end.

End Pandas.

Import Pandas.

(* ================================================================== *)
(** * isone_web_api/json_parser.py *)
(* ================================================================== *)

Module JsonParser.

Definition key_not_found (key : string) : exn :=
  KeyError ("Key '" ++ key ++ "' not found in the provided data.").

Definition not_a_list : exn := TypeError "Nested data is not a list.".

(** The loop [for key in record_path]: one [get] per key, with [[]] for
    a missing key, and a [KeyError] as soon as the value is falsy. *)
Fixpoint walk (nested_data : json) (record_path : list string)
  : outcome json :=
  match record_path with
  | [] => Return nested_data
  | key :: rest =>
      bind (get nested_data key (JList []))
        (fun nested_data =>
           if negb (truthy nested_data) then Raise (key_not_found key)
           else walk nested_data rest)
  end.

(** [parse_json_response(data, record_path=None)].  [None] and [[]] are
    both falsy and skip the traversal. *)
Definition parse_json_response (data : json)
    (record_path : option (list string)) : outcome DataFrame :=
  match record_path with
  | Some (key :: rest) =>
      bind (walk data (key :: rest))
        (fun nested_data =>
           match nested_data with
           | JList items => json_normalize items
           | _ => Raise not_a_list
           end)
  | Some [] | None => DataFrame_of data
  end.

End JsonParser.

Import JsonParser.

(* ================================================================== *)
(** * datetime: [strptime] and [strftime] for the pattern [%Y%m%d] *)
(* ================================================================== *)

Module Datetime.

Local Open Scope Z_scope.

(** A group of the compiled format: alternatives tried in order, each a
    sequence of character classes. *)
Definition char_class : Type := ascii -> bool.
Definition alternative : Type := list char_class.
Definition group : Type := list alternative.

Definition exactly (a : ascii) : char_class := Ascii.eqb a.

(** [TimeRE]: the directives [%Y], [%m] and [%d]. *)
Definition group_Y : group :=
  [[is_digit; is_digit; is_digit; is_digit]].

Definition group_m : group :=
  [ [exactly "1"; in_range "0" "2"];
    [exactly "0"; in_range "1" "9"];
    [in_range "1" "9"] ].

Definition group_d : group :=
  [ [exactly "3"; in_range "0" "1"];
    [in_range "1" "2"; is_digit];
    [exactly "0"; in_range "1" "9"];
    [in_range "1" "9"];
    [exactly " "; in_range "1" "9"] ].

(** The regular expression of ["%Y%m%d"]. *)
Definition format_regex : list group := [group_Y; group_m; group_d].

(** One alternative against the front of [s]: the text it takes and what
    is left. *)
Fixpoint match_alternative (alt : alternative) (s : string)
  : option (string * string) :=
  match alt with
  | [] => Some ("", s)
  | cls :: alt' =>
      match s with
      | EmptyString => None
      | String c s' =>
          if cls c then
            match match_alternative alt' s' with
            | Some (text, rest) => Some (String c text, rest)
            | None => None
            end
          else None
      end
  end.

(** [re.match]: the groups in sequence from the start of [s]; of a
    group, the first alternative after which the remaining groups match.
    Gives the text of each group and the unmatched end of [s]. *)
Fixpoint regex_match (groups : list group) (s : string)
  : option (list string * string) :=
  match groups with
  | [] => Some ([], s)
  | g :: groups' =>
      (fix try (alts : list alternative) : option (list string * string) :=
         match alts with
         | [] => None
         | alt :: alts' =>
             match match_alternative alt s with
             | Some (text, rest) =>
                 match regex_match groups' rest with
                 | Some (texts, tail) => Some (text :: texts, tail)
                 | None => try alts'
                 end
             | None => try alts'
             end
         end) g
  end.

(** The date part of a [datetime]; a parsed ["%Y%m%d"] has midnight as
    its time. *)
Record datetime : Type := mkDatetime {
  year : Z;
  month : Z;
  day : Z
}.

Definition MINYEAR : Z := 1.
Definition MAXYEAR : Z := 9999.

Definition _is_leap (year : Z) : bool :=
  (year mod 4 =? 0) && (negb (year mod 100 =? 0) || (year mod 400 =? 0)).

Definition _days_in_month (year month : Z) : Z :=
  if (month =? 2) && _is_leap year then 29
  else nth (Z.to_nat month) [-1; 31; 28; 31; 30; 31; 30; 31; 31; 30; 31; 30; 31] 0.

(** [datetime(year, month, day)]: the check of the date fields. *)
Definition _check_date_fields (year month day : Z) : outcome datetime :=
  if negb ((MINYEAR <=? year) && (year <=? MAXYEAR)) then
    Raise (ValueError ("year " ++ str_of_int year ++ " is out of range"))
  else if negb ((1 <=? month) && (month <=? 12)) then
    Raise (ValueError "month must be in 1..12")
  else if negb ((1 <=? day) && (day <=? _days_in_month year month)) then
    Raise (ValueError "day is out of range for month")
  else Return (mkDatetime year month day).

(** [datetime.strptime(data_string, "%Y%m%d")].  The message of a failed
    match leaves out the quoted input; the caller drops the message. *)
Definition strptime (data_string : string) : outcome datetime :=
  match regex_match format_regex data_string with
  | Some ([Y; m; d], EmptyString) => _check_date_fields (int Y) (int m) (int d)
  | Some (_, rest) => Raise (ValueError ("unconverted data remains: " ++ rest))
  | None => Raise (ValueError "time data does not match format '%Y%m%d'")
  end.

(** A number in decimal, zero-filled to [width] digits. *)
Fixpoint zero_filled (width : nat) (n : Z) : string :=
  match width with
  | O => ""
  | S w => zero_filled w (n / 10) ++ String (digit_char (n mod 10)) ""
  end.

(** [d.strftime("%Y%m%d")], as CPython before 3.13 gives it on glibc:
    the C library renders [%Y] as the plain decimal number of the year,
    without zero-filling ([999] for the year 999), and month and day on
    two digits. *)
Definition strftime (d : datetime) : string :=
  str_of_int (year d) ++ zero_filled 2 (month d) ++ zero_filled 2 (day d).

End Datetime.

Import Datetime.

(* ================================================================== *)
(** * str: [repr] and [str.format] *)
(* ================================================================== *)

Module Str.

(** Characters [repr] copies unchanged between single quotes: printable
    ASCII but the quote and the backslash. *)
Definition plain_char (c : ascii) : bool :=
  (32 <=? nat_of_ascii c)%nat && (nat_of_ascii c <=? 126)%nat
  && negb (Ascii.eqb c "'") && negb (Ascii.eqb c "\").

(** [repr(s)] for a [str] of plain characters; quoting and escapes are
    left out. *)
Definition repr_str (s : string) : outcome string :=
  if all_chars plain_char s then Return ("'" ++ s ++ "'") else Unmodelled.

(** [", ".join(parts)]. *)
Fixpoint join (sep : string) (parts : list string) : string :=
  match parts with
  | [] => ""
  | [p] => p
  | p :: rest => p ++ sep ++ join sep rest
  end.

Fixpoint sequence {A : Type} (l : list (outcome A)) : outcome (list A) :=
  match l with
  | [] => Return []
  | m :: rest =>
      bind m (fun a => bind (sequence rest) (fun r => Return (a :: r)))
  end.

(** [repr(x)], which is also [str(x)] for everything but a [str]; the
    digits of a [float] are left out. *)
Fixpoint repr (x : json) : outcome string :=
  match x with
  | JNull => Return "None"
  | JBool true => Return "True"
  | JBool false => Return "False"
  | JInt n => Return (str_of_int n)
  | JFloat _ => Unmodelled
  | JStr s => repr_str s
  | JList items =>
      bind (sequence (map repr items))
        (fun parts => Return ("[" ++ join ", " parts ++ "]"))
  | JDict items =>
      bind (sequence
              (map (fun kv =>
                      bind (repr_str (fst kv))
                        (fun k => bind (repr (snd kv))
                                    (fun v => Return (k ++ ": " ++ v))))
                 items))
        (fun parts => Return ("{" ++ join ", " parts ++ "}"))
  end.

Definition str (x : json) : outcome string :=
  match x with
  | JStr s => Return s
  | _ => repr x
  end.

(** An argument of [format]: a value, or the class [dict] itself. *)
Inductive object : Type :=
| Value (x : json)
| DictClass.

Definition str_of_object (o : object) : outcome string :=
  match o with
  | Value x => str x
  | DictClass => Return "<class 'dict'>"
  end.

(** Where the scanner of a format string stands. *)
Inductive scan_state : Type :=
| Text                      (* in literal text *)
| Opened                    (* after a ['{'] *)
| Closed                    (* after a ['}'] in literal text *)
| InField (name : string).  (* in a replacement field *)

(** How the fields seen so far were numbered ([AutoNumber]). *)
Inductive numbering : Type :=
| ANS_INIT
| ANS_AUTO (next : nat)
| ANS_MANUAL.

(** Field syntax left out: conversions, format specs, attribute and
    index access, nested fields. *)
Definition special_char (c : ascii) : bool :=
  Ascii.eqb c "!" || Ascii.eqb c ":" || Ascii.eqb c "." || Ascii.eqb c "["
  || Ascii.eqb c "{".

Definition all_digits (s : string) : bool :=
  negb (String.eqb s "") && all_chars is_digit s.

Definition positional (args : list object) (i : nat) : outcome string :=
  match nth_error args i with
  | Some o => str_of_object o
  | None =>
      Raise (IndexError
               ("Replacement index " ++ str_of_int (Z.of_nat i)
                ++ " out of range for positional args tuple"))
  end.

Fixpoint keyword (kwargs : list (string * object)) (name : string)
  : outcome string :=
  match kwargs with
  | [] => Raise (KeyError name)
  | (k, o) :: rest =>
      if String.eqb k name then str_of_object o else keyword rest name
  end.

(** The text of one replacement field, and the numbering after it. *)
Definition get_field (args : list object) (kwargs : list (string * object))
    (num : numbering) (name : string) : outcome (string * numbering) :=
  if String.eqb name "" then
    match num with
    | ANS_MANUAL =>
        Raise (ValueError
                 ("cannot switch from manual field specification "
                  ++ "to automatic field numbering"))
    | ANS_INIT => bind (positional args 0) (fun t => Return (t, ANS_AUTO 1))
    | ANS_AUTO i =>
        bind (positional args i) (fun t => Return (t, ANS_AUTO (S i)))
    end
  else if all_digits name then
    match num with
    | ANS_AUTO _ =>
        Raise (ValueError
                 ("cannot switch from automatic field numbering "
                  ++ "to manual field specification"))
    | _ =>
        bind (positional args (Z.to_nat (int_of_digits 0 name)))
          (fun t => Return (t, ANS_MANUAL))
    end
  else bind (keyword kwargs name) (fun t => Return (t, num)).

(** [template.format( *args, **kwargs)], left to right: a field is looked
    up when its closing brace is read, so the first failure wins. *)
Fixpoint format_from (st : scan_state) (num : numbering) (out : string)
    (template : string) (args : list object)
    (kwargs : list (string * object)) : outcome string :=
  match template with
  | EmptyString =>
      match st with
      | Text => Return out
      | Opened =>
          Raise (ValueError "Single '{' encountered in format string")
      | Closed =>
          Raise (ValueError "Single '}' encountered in format string")
      | InField _ => Raise (ValueError "expected '}' before end of string")
      end
  | String c rest =>
      match st with
      | Text =>
          if Ascii.eqb c "{" then format_from Opened num out rest args kwargs
          else if Ascii.eqb c "}" then
            format_from Closed num out rest args kwargs
          else format_from Text num (out ++ String c "") rest args kwargs
      | Closed =>
          if Ascii.eqb c "}" then
            format_from Text num (out ++ "}") rest args kwargs
          else Raise (ValueError "Single '}' encountered in format string")
      | Opened =>
          if Ascii.eqb c "{" then
            format_from Text num (out ++ "{") rest args kwargs
          else if Ascii.eqb c "}" then
            bind (get_field args kwargs num "")
              (fun r => format_from Text (snd r) (out ++ fst r) rest
                          args kwargs)
          else if special_char c then Unmodelled
          else format_from (InField (String c "")) num out rest args kwargs
      | InField name =>
          if Ascii.eqb c "}" then
            bind (get_field args kwargs num name)
              (fun r => format_from Text (snd r) (out ++ fst r) rest
                          args kwargs)
          else if special_char c then Unmodelled
          else
            format_from (InField (name ++ String c "")) num out rest
              args kwargs
      end
  end.

Definition format (template : string) (args : list object)
    (kwargs : list (string * object)) : outcome string :=
  format_from Text ANS_INIT "" template args kwargs.

End Str.

(* ================================================================== *)
(** * isone_web_api/endpoint_paths.py *)
(* ================================================================== *)

Module EndpointPaths.

(** Container for ISO-NE endpoints and JSON path. *)
Record APIEndpoint : Type := mkAPIEndpoint {
  endpoint_url : string;
  json_payload_record_path : list string
}.

(** [create_endpoint_url(endpoint, parameters=dict)]: the default of
    [parameters] is the class [dict]; either way the argument is passed
    to [format] as its one positional argument. *)
Definition create_endpoint_url (endpoint : APIEndpoint)
    (parameters : option json) : outcome string :=
  let parameters :=
    match parameters with
    | Some p => Str.Value p
    | None => Str.DictClass
    end in
  Str.format (endpoint_url endpoint) [parameters] [].

Definition DailyFuelMix : APIEndpoint :=
  mkAPIEndpoint "genfuelmix/day/{day}" ["GenFuelMixes"; "GenFuelMix"].

End EndpointPaths.

Import EndpointPaths.

(* ================================================================== *)
(** * isone_web_api/api_client.py *)
(* ================================================================== *)

Module ApiClient.

Record HTTPBasicAuth : Type := mkHTTPBasicAuth {
  username : string;
  password : string
}.

(** What [requests.get(url, auth=..., headers=..., params=...)] sends. *)
Record Request : Type := mkRequest {
  method : string;
  url : string;
  auth : HTTPBasicAuth;
  headers : list (string * string);
  params : option (list (string * string))
}.

(** What comes back: the status, the body, and the body decoded as JSON
    when it is JSON. *)
Record Response : Type := mkResponse {
  status_code : Z;
  text : string;
  decoded : option json
}.

(** The world a call runs in: the process environment once the dotenv
    file is loaded, the remote end (a response, or the exception of a
    failed exchange), and the requests sent so far, oldest first. *)
Record World : Type := mkWorld {
  getenv : string -> option string;
  remote : Request -> outcome Response;
  sent : list Request
}.

(** A call that may touch the world: its outcome and the world after. *)
Definition IO (A : Type) : Type := World -> outcome A * World.

Definition ret {A : Type} (a : A) : IO A := fun w => (Return a, w).

Definition lift {A : Type} (m : outcome A) : IO A := fun w => (m, w).

Definition io_bind {A B : Type} (m : IO A) (k : A -> IO B) : IO B :=
  fun w =>
    match m w with
    | (Return a, w') => k a w'
    | (Raise e, w') => (Raise e, w')
    | (Unmodelled, w') => (Unmodelled, w')
    end.

Notation "x <- m ;; k" := (io_bind m (fun x => k))
  (at level 61, m at next level, right associativity).
Notation "m ;;; k" := (io_bind m (fun _ => k))
  (at level 61, right associativity).

(** [requests.get]: one request goes out and the remote end answers. *)
Definition requests_get (url : string) (auth : HTTPBasicAuth)
    (headers : list (string * string))
    (params : option (list (string * string))) : IO Response :=
  fun w =>
    let request := mkRequest "GET" url auth headers params in
    (remote w request,
     mkWorld (getenv w) (remote w) (sent w ++ [request])%list).

(** [response.raise_for_status()]: an [HTTPError] for a 4xx or 5xx. *)
Definition raise_for_status (response : Response) : outcome unit :=
  if ((400 <=? status_code response) && (status_code response <? 600))%Z
  then Raise (HTTPError (status_code response))
  else Return tt.

(** [response.json()]. *)
Definition response_json (response : Response) : outcome json :=
  match decoded response with
  | Some j => Return j
  | None => Raise (JSONDecodeError "body is not JSON")
  end.

(** Falsy for [os.getenv]: unset, or set to the empty string. *)
Definition unset (v : option string) : bool :=
  match v with
  | None => true
  | Some s => String.eqb s ""
  end.

(** [load_environment_secrets(dotenv_path=None)]; [getenv] is read after
    [load_dotenv], whichever file it loaded.  The logged line is not
    modelled. *)
Definition load_environment_secrets : IO (string * string) :=
  fun w =>
    let api_username := getenv w "API_USERNAME" in
    let api_password := getenv w "API_PASSWORD" in
    if unset api_username || unset api_password then
      (Raise (RuntimeError "API credentials are required but not set."), w)
    else
      (Return (match api_username with Some u => u | None => "" end,
               match api_password with Some p => p | None => "" end), w).

(** A client for interacting with the ISO New England API. *)
Record ISONEClient : Type := mkISONEClient {
  client_auth : HTTPBasicAuth
}.

Definition BASE_URL : string := "https://webservices.iso-ne.com/api/v1.1".

(** [ISONEClient()]. *)
Definition new_client : IO ISONEClient :=
  secrets <- load_environment_secrets ;;
  ret (mkISONEClient (mkHTTPBasicAuth (fst secrets) (snd secrets))).

(** What [get_data] returns: the decoded JSON, or the raw text. *)
Inductive payload : Type :=
| Parsed (j : json)
| RawText (s : string).

(** [get_data(self, endpoint, params=None, file_format="json")]. *)
Definition get_data (self : ISONEClient) (endpoint : string)
    (params : option (list (string * string))) (file_format : string)
  : IO payload :=
  let headers := [("Accept", "application/" ++ file_format)] in
  let url := BASE_URL ++ "/" ++ endpoint ++ "." ++ file_format in
  response <- requests_get url (client_auth self) headers params ;;
  lift (raise_for_status response) ;;;
  if String.eqb file_format "json"
  then lift (bind (response_json response) (fun j => Return (Parsed j)))
  else ret (RawText (text response)).

End ApiClient.

Import ApiClient.

(* ================================================================== *)
(** * isone_web_api/endpoints.py *)
(* ================================================================== *)

Module Endpoints.

(** [validate_date_format(date_text)]: [None] when the text parses and
    is rendered back unchanged, a [ValueError] otherwise. *)
Definition validate_date_format (date_text : string) : outcome unit :=
  match strptime date_text with
  | Raise (ValueError _) =>
      Raise (ValueError
               ("The date " ++ date_text
                ++ " is not in the correct format YYYYMMDD."))
  | Raise e => Raise e
  | Unmodelled => Unmodelled
  | Return parsed_date =>
      if negb (String.eqb (strftime parsed_date) date_text) then
        Raise (ValueError
                 ("The date " ++ date_text
                  ++ " is not in the strict format YYYYMMDD."))
      else Return tt
  end.

(** The abstract base class: what every retriever holds, and the method
    a concrete retriever supplies. *)
Class DataRetriever (R : Type) : Type := {
  retrieve_args : Type;
  api_client : R -> ISONEClient;
  record_path : R -> list string;
  retrieve_data : R -> retrieve_args -> IO payload
}.

(** The retriever of the daily fuel mix. *)
Record DailyFuelMixDataRetriever : Type := mkDailyFuelMixDataRetriever {
  daily_api_client : ISONEClient
}.

Definition daily_retrieve_data (self : DailyFuelMixDataRetriever)
    (day : string) : IO payload :=
  lift (validate_date_format day) ;;;
  let endpoint := "genfuelmix/day/" ++ day in
  get_data (daily_api_client self) endpoint None "json".

#[export] Instance DailyFuelMix_retriever
  : DataRetriever DailyFuelMixDataRetriever := {
  retrieve_args := string;
  api_client := daily_api_client;
  record_path := fun _ => ["GenFuelMixes"; "GenFuelMix"];
  retrieve_data := daily_retrieve_data
}.

End Endpoints.

Import Endpoints.

(* ================================================================== *)
(** * isone_web_api/_example.py *)
(* ================================================================== *)

Module ExampleScript.

(** What [get_data] returned, as the [data] argument of the parser: the
    decoded document, or the text as a [str]. *)
Definition payload_value (p : payload) : json :=
  match p with
  | Parsed j => j
  | RawText s => JStr s
  end.

(** The body of [if __name__ == "__main__"]: a client, a retriever bound
    to it, one retrieval and the parse of what came back. *)
Definition main : IO DataFrame :=
  client <- new_client ;;
  let endpoint := mkDailyFuelMixDataRetriever client in
  endpoint_response <- retrieve_data endpoint "20231201" ;;
  lift (parse_json_response (payload_value endpoint_response)
          (Some (record_path endpoint))).

End ExampleScript.

Import ExampleScript.

(* ================================================================== *)
(** * The notions the properties are stated with *)
(* ================================================================== *)

(** The value a record path leads to: each key is an entry of the mapping
    the keys before it lead to. *)
Fixpoint lookup_path (document : json) (record_path : list string)
  : option json :=
  match record_path with
  | [] => Some document
  | key :: rest =>
      match document with
      | JDict d =>
          match dict_lookup d key with
          | Some v => lookup_path v rest
          | None => None
          end
      | _ => None
      end
  end.

(** The value [get] hands the traversal: the entry, or [[]] without one. *)
Definition looked_up (d : dict) (key : string) : json :=
  match dict_lookup d key with
  | Some v => v
  | None => JList []
  end.

(** [reaches document keys x]: looking the keys up one after another,
    each in a mapping and each finding a truthy value, ends at [x]. *)
Inductive reaches : json -> list string -> json -> Prop :=
| reaches_here (x : json) : reaches x [] x
| reaches_step (d : dict) (key : string) (rest : list string) (x : json) :
    truthy (looked_up d key) = true ->
    reaches (looked_up d key) rest x ->
    reaches (JDict d) (key :: rest) x.

(** Every value a key of the path is looked up in is a mapping (the
    traversal stops at the first falsy value it finds). *)
Fixpoint mappings_along (document : json) (record_path : list string)
  : bool :=
  match record_path with
  | [] => true
  | key :: rest =>
      match document with
      | JDict d =>
          if truthy (looked_up d key)
          then mappings_along (looked_up d key) rest
          else true
      | _ => false
      end
  end.

(** [needle] occurs in [s]. *)
Fixpoint mentions (s needle : string) : bool :=
  String.prefix needle s
  || match s with
     | EmptyString => false
     | String _ s' => mentions s' needle
     end.

(** The position of a column label. *)
Fixpoint index_of (c : string) (l : list string) : option nat :=
  match l with
  | [] => None
  | x :: rest =>
      if String.eqb x c then Some O
      else match index_of c rest with
           | Some j => Some (S j)
           | None => None
           end
  end.

(** The cell of row [i] under column [c]. *)
Definition cell_at (df : DataFrame) (i : nat) (c : string) : option cell :=
  match nth_error (rows df) i, index_of c (columns df) with
  | Some row, Some j => nth_error row j
  | _, _ => None
  end.

(** The fields of a value: each value that is not a mapping, with the
    keys that lead to it through nested mappings. *)
Fixpoint fields (x : json) : list (list string * json) :=
  match x with
  | JDict items =>
      flat_map
        (fun kv => map (fun f => (fst kv :: fst f, snd f)) (fields (snd kv)))
        items
  | _ => [([], x)]
  end.

(** The keys of a field joined with ["."]; empty keys in front are not
    joined. *)
Fixpoint skip_empty (path : list string) : list string :=
  match path with
  | [] => []
  | key :: rest => if String.eqb key "" then skip_empty rest else path
  end.

Definition dot_joined (path : list string) : string :=
  String.concat "." (skip_empty path).

(** The column names a record gives rise to. *)
Definition field_names (record : dict) : list string :=
  map (fun f => dot_joined (fst f)) (fields (JDict record)).

(** The length of a month of the Gregorian calendar. *)
Definition leap_year (y : Z) : bool :=
  ((y mod 4 =? 0) && negb (y mod 100 =? 0) || (y mod 400 =? 0))%Z.

Definition month_length (y m : Z) : Z :=
  if ((m =? 4) || (m =? 6) || (m =? 9) || (m =? 11))%Z then 30%Z
  else if (m =? 2)%Z then (if leap_year y then 29%Z else 28%Z)
  else 31%Z.

(** A day of the calendar: a year from 1 to 9999, a month from 1 to 12
    and a day from 1 to the length of the month. *)
Definition calendar_date (y m d : Z) : bool :=
  ((1 <=? y) && (y <=? 9999) && (1 <=? m) && (m <=? 12)
   && (1 <=? d) && (d <=? month_length y m))%Z.

(** [s] is eight ASCII digits [YYYYMMDD] that name a day of the
    calendar. *)
Definition canonical_date (s : string) : bool :=
  match s with
  | String y1 (String y2 (String y3 (String y4
      (String m1 (String m2 (String d1 (String d2 EmptyString))))))) =>
      forallb is_digit [y1; y2; y3; y4; m1; m2; d1; d2]
      && calendar_date
           (1000 * digit_val y1 + 100 * digit_val y2
            + 10 * digit_val y3 + digit_val y4)%Z
           (10 * digit_val m1 + digit_val m2)%Z
           (10 * digit_val d1 + digit_val d2)%Z
  | _ => false
  end.

(** The falsy entries of a mapping under [key]: none, or one of the
    values [bool] sends to [False]. *)
Definition falsy_entry (d : dict) (key : string) : Prop :=
  dict_lookup d key = None
  \/ dict_lookup d key = Some (JList [])
  \/ dict_lookup d key = Some (JDict [])
  \/ dict_lookup d key = Some (JStr "")
  \/ dict_lookup d key = Some (JInt 0)
  \/ (exists sign, dict_lookup d key = Some (JFloat (S754_zero sign)))
  \/ dict_lookup d key = Some JNull
  \/ dict_lookup d key = Some (JBool false).

Definition is_empty (d : dict) : bool :=
  match d with [] => true | _ :: _ => false end.

Definition nonempty (l : list string) : bool :=
  match l with [] => false | _ :: _ => true end.

(** One assignment [acc[name] = value] of a field, under the name
    [name_of] gives it. *)
Definition set_field (name_of : list string * json -> string) (acc : dict)
    (f : list string * json) : dict :=
  dict_set acc (name_of f) (snd f).

(** The key the flattening gives a field below [key_string]. *)
Definition extend (key_string key : string) : string :=
  if String.eqb key_string ""
  then removeprefix "." (key_string ++ "." ++ key)
  else key_string ++ "." ++ key.

Definition name_from (key_string : string) (path : list string) : string :=
  fold_left extend path key_string.

(** The request for the fuel mix of 2023-12-01, with [auth] attached. *)
Definition fuel_mix_request_20231201 (auth : HTTPBasicAuth) : Request :=
  mkRequest "GET"
    (BASE_URL ++ "/" ++ "genfuelmix/day/20231201.json")
    auth
    [("Accept", "application/json")]
    None.

(** A status [raise_for_status] lets through. *)
Definition status_passes (response : Response) : bool :=
  ((status_code response <? 400) || (600 <=? status_code response))%Z.

(** The request [get_data] builds from its arguments. *)
Definition get_request (self : ISONEClient) (endpoint : string)
    (params : option (list (string * string))) (file_format : string)
  : Request :=
  mkRequest "GET"
    (BASE_URL ++ "/" ++ endpoint ++ "." ++ file_format)
    (client_auth self)
    [("Accept", "application/" ++ file_format)]
    params.

(** The world after one more request. *)
Definition after_request (w : World) (request : Request) : World :=
  mkWorld (getenv w) (remote w) (sent w ++ [request])%list.

(** A status in the range [raise_for_status] refuses. *)
Definition error_status (response : Response) : bool :=
  ((400 <=? status_code response) && (status_code response <? 600))%Z.

(** A text without braces. *)
Definition brace_free (s : string) : bool :=
  all_chars (fun c => negb (Ascii.eqb c "{") && negb (Ascii.eqb c "}")) s.

(** A placeholder name [format] looks up among the keyword arguments: not
    empty, not a number, and free of braces and of the characters that
    start a conversion, a format spec, an attribute or an index. *)
Definition keyword_name (name : string) : bool :=
  negb (String.eqb name "")
  && negb (Str.all_digits name)
  && all_chars (fun c => negb (Ascii.eqb c "}") && negb (Str.special_char c))
       name.

(** The text starts with a digit other than [0]: as the first of four
    year digits, a year from 1000 on. *)
Definition four_digit_year (s : string) : bool :=
  match s with
  | String c _ => negb (Ascii.eqb c "0")
  | EmptyString => false
  end.

(** No element of an array is itself an array. *)
Definition no_nested_list (items : list json) : bool :=
  forallb (fun x => negb (is_list x)) items.

(** A record none of whose values is a mapping. *)
Definition flat_record (r : dict) : bool :=
  forallb (fun kv => negb (is_dict (snd kv))) r.

(* ================================================================== *)
(** * Properties of the response parser *)
(* ================================================================== *)

Section Strings.

Lemma append_empty_r (s : string) : s ++ "" = s.
Proof. induction s; simpl; [reflexivity | rewrite IHs; reflexivity]. Qed.

Lemma append_assoc (a b c : string) : (a ++ b) ++ c = a ++ (b ++ c).
Proof. induction a; simpl; [reflexivity | rewrite IHa; reflexivity]. Qed.

Lemma append_nonempty (a b : string) : a <> "" -> a ++ b <> "".
Proof. destruct a; [contradiction | discriminate]. Qed.

Lemma substring_all (s : string) : String.substring 0 (String.length s) s = s.
Proof. induction s; simpl; [reflexivity | rewrite IHs; reflexivity]. Qed.

End Strings.

Section Traversal.

Lemma walk_app (pre post : list string) (x : json) :
  walk x (pre ++ post)%list = bind (walk x pre) (fun y => walk y post).
Proof.
  revert x; induction pre as [|key pre IH]; intros x; simpl; [reflexivity|].
  destruct (get x key (JList [])) as [v| |]; simpl; try reflexivity.
  destruct (truthy v); simpl; [apply IH | reflexivity].
Qed.

Lemma walk_reaches (keys : list string) (x y : json) :
  reaches x keys y -> walk x keys = Return y.
Proof.
  induction 1 as [x|d key rest x Ht _ IH]; simpl; [reflexivity|].
  fold (looked_up d key). rewrite Ht. simpl. exact IH.
Qed.

Lemma reaches_walk (keys : list string) (x y : json) :
  walk x keys = Return y -> reaches x keys y.
Proof.
  revert x; induction keys as [|key rest IH]; intros x; simpl.
  - intros [= ->]. constructor.
  - destruct x; simpl; try discriminate.
    fold (looked_up items key).
    destruct (truthy (looked_up items key)) eqn:Ht; simpl; [|discriminate].
    intros H. constructor; auto.
Qed.

(** A mapping that has an entry is truthy. *)
Lemma lookup_some_truthy (d : dict) (key : string) (v : json) :
  dict_lookup d key = Some v -> truthy (JDict d) = true.
Proof. destruct d; [discriminate | reflexivity]. Qed.

(** Along a path whose keys are all present, only the last value can be
    falsy: the traversal ends there, or fails on the last key. *)
Lemma walk_lookup_path (record_path : list string) (document v : json) :
  record_path <> [] ->
  lookup_path document record_path = Some v ->
  walk document record_path =
    if truthy v then Return v
    else Raise (key_not_found (last record_path "")).
Proof.
  revert document; induction record_path as [|key rest IH]; intros doc Hne H.
  - contradiction.
  - simpl in H. destruct doc; try discriminate.
    destruct (dict_lookup items key) as [v1|] eqn:Hk; [|discriminate].
    cbn [walk get bind]. rewrite Hk.
    destruct rest as [|key2 rest'].
    + simpl in H. injection H as ->. simpl.
      destruct (truthy v); reflexivity.
    + assert (Ht : truthy v1 = true).
      { simpl in H. destruct v1; try discriminate.
        destruct (dict_lookup items0 key2) eqn:E; [|discriminate].
        eapply lookup_some_truthy; eauto. }
      rewrite Ht. cbn [negb].
      rewrite (IH v1); [|discriminate|exact H].
      reflexivity.
Qed.

End Traversal.

Section PathErrors.

Lemma parse_nonempty (document : json) (record_path : list string) :
  record_path <> [] ->
  parse_json_response document (Some record_path) =
    bind (walk document record_path)
      (fun nested_data =>
         match nested_data with
         | JList items => json_normalize items
         | _ => Raise not_a_list
         end).
Proof. destruct record_path; [contradiction | reflexivity]. Qed.

Lemma app_cons_nonempty (before after : list string) (key : string) :
  (before ++ key :: after)%list <> [].
Proof. destruct before; discriminate. Qed.

(** The traversal fails on the first key whose value is falsy. *)
Lemma walk_falsy (document : json) (before after : list string) (d : dict)
    (key : string) :
  reaches document before (JDict d) ->
  truthy (looked_up d key) = false ->
  walk document (before ++ key :: after)%list = Raise (key_not_found key).
Proof.
  intros Hr Hf. rewrite walk_app, (walk_reaches _ _ _ Hr).
  cbn [bind walk get]. fold (looked_up d key). rewrite Hf. reflexivity.
Qed.

Lemma falsy_entry_looked_up (d : dict) (key : string) :
  falsy_entry d key <-> truthy (looked_up d key) = false.
Proof.
  unfold falsy_entry, looked_up. split.
  - intros [H|[H|[H|[H|[H|[[sign H]|[H|H]]]]]]]; rewrite H; reflexivity.
  - destruct (dict_lookup d key) as [v|]; [|auto].
    destruct v as [|b|n|f|s|l|l]; simpl; intros H.
    + tauto.
    + subst b; tauto.
    + apply negb_false_iff, Z.eqb_eq in H. subst n; tauto.
    + destruct f; try discriminate. do 5 right. left. eauto.
    + apply negb_false_iff, String.eqb_eq in H. subst s; tauto.
    + destruct l; [tauto | discriminate].
    + destruct l; [tauto | discriminate].
Qed.

(** C10.  Whatever mapping the keys before [key] lead to (each of them
    finding a truthy value), if [key] is absent from it, or present with
    an empty array, an empty mapping, an empty string, zero (of either
    number type), null or false, the parser raises the [KeyError] whose
    message is [Key '<key>' not found in the provided data.], naming
    [key] and no other key.  [key] may be the last key of the path: a
    falsy terminal value gives this error, neither the [TypeError] nor
    an empty frame. *)
Theorem falsy_step_raises_key_error
    (document : json) (before after : list string) (d : dict) (key : string) :
  reaches document before (JDict d) ->
  falsy_entry d key ->
  parse_json_response document (Some (before ++ key :: after)%list)
  = Raise (KeyError ("Key '" ++ key ++ "' not found in the provided data.")).
Proof.
  intros Hr Hf. apply falsy_entry_looked_up in Hf.
  rewrite parse_nonempty by apply app_cons_nonempty.
  rewrite (walk_falsy _ _ _ _ _ Hr Hf). reflexivity.
Qed.

Lemma falsy_step_raises_key_error_on_empty_array :
  parse_json_response
    (JDict [("A", JDict [("B", JList [])])]) (Some ["A"; "B"])
  = Raise (KeyError "Key 'B' not found in the provided data.").
Proof.
  apply (falsy_step_raises_key_error
           (JDict [("A", JDict [("B", JList [])])]) ["A"] []
           [("B", JList [])] "B").
  - apply reaches_step; [reflexivity | apply reaches_here].
  - right; left; reflexivity.
Defined.

(** C2, as the code has it.  When a record path leads, key by key, to
    an empty array, the outcome depends on the path.  If the path is not
    empty the parser raises the [KeyError] whose message is
    [Key '<last key>' not found in the provided data.] and returns no
    frame.  If the path is empty (or absent) the document is itself the
    empty array, and the parser returns the frame without rows and
    without columns. *)
Theorem empty_array_at_path
    (document : json) (record_path : list string) :
  lookup_path document record_path = Some (JList []) ->
  (record_path <> [] ->
   parse_json_response document (Some record_path)
   = Raise (KeyError
              ("Key '" ++ last record_path ""
               ++ "' not found in the provided data.")))
  /\ (record_path = [] ->
      exists df,
        parse_json_response document (Some record_path) = Return df
        /\ parse_json_response document None = Return df
        /\ rows df = [] /\ columns df = []).
Proof.
  intros H. split.
  - intros Hne. rewrite parse_nonempty by assumption.
    rewrite (walk_lookup_path _ _ _ Hne H). reflexivity.
  - intros ->. simpl in H. injection H as ->.
    exists empty_frame. repeat split.
Qed.

Lemma empty_array_at_path_example :
  parse_json_response
    (JDict [("A", JDict [("B", JList [])])]) (Some ["A"; "B"])
  = Raise (KeyError "Key 'B' not found in the provided data.").
Proof.
  apply (proj1 (empty_array_at_path
                  (JDict [("A", JDict [("B", JList [])])]) ["A"; "B"]
                  eq_refl)).
  intros H; discriminate H.
Defined.

(** C2 fails as stated: the path [["A"; "B"]] leads to the empty array of
    [{"A": {"B": []}}], and the parser raises instead of returning a
    frame. *)
Lemma empty_array_is_not_a_frame :
  lookup_path (JDict [("A", JDict [("B", JList [])])]) ["A"; "B"]
  = Some (JList [])
  /\ parse_json_response
       (JDict [("A", JDict [("B", JList [])])]) (Some ["A"; "B"])
     = Raise (KeyError "Key 'B' not found in the provided data.")
  /\ ~ (exists df,
          parse_json_response
            (JDict [("A", JDict [("B", JList [])])]) (Some ["A"; "B"])
          = Return df).
Proof.
  split; [reflexivity|]. split; [reflexivity|].
  intros [df H]. discriminate H.
Qed.

(** C4, as the code has it.  When the keys before [key] are entries of
    the mappings they are looked up in and lead to a mapping without
    [key], the parser raises a [KeyError] whose message names one key and
    nothing else: [key] itself, unless the mapping reached is empty, in
    which case the key before it is the one named. *)
Theorem absent_key_raises_key_error
    (document : json) (before after : list string) (d : dict) (key : string) :
  lookup_path document before = Some (JDict d) ->
  dict_lookup d key = None ->
  parse_json_response document (Some (before ++ key :: after)%list)
  = Raise (KeyError
             ("Key '"
              ++ (if is_empty d && nonempty before then last before "" else key)
              ++ "' not found in the provided data.")).
Proof.
  intros Hl Hk. fold (key_not_found
    (if is_empty d && nonempty before then last before "" else key)).
  rewrite parse_nonempty by apply app_cons_nonempty.
  rewrite walk_app.
  assert (Hget : walk (JDict d) (key :: after) = Raise (key_not_found key)).
  { cbn [walk get bind]. rewrite Hk. reflexivity. }
  destruct before as [|k0 before'].
  - simpl in Hl. injection Hl as ->.
    rewrite andb_false_r.
    change (walk (JDict d) []) with (Return (JDict d)). cbn [bind].
    rewrite Hget. reflexivity.
  - assert (Hne : k0 :: before' <> []) by discriminate.
    rewrite (walk_lookup_path _ _ _ Hne Hl).
    rewrite andb_true_r.
    destruct d as [|kv d']; cbn [truthy is_empty bind].
    + reflexivity.
    + rewrite Hget. reflexivity.
Qed.

Lemma absent_key_raises_key_error_example :
  parse_json_response
    (JDict [("A", JDict [("B", JList [])])]) (Some ["A"; "C"])
  = Raise (KeyError "Key 'C' not found in the provided data.").
Proof.
  apply (absent_key_raises_key_error
           (JDict [("A", JDict [("B", JList [])])]) ["A"] []
           [("B", JList [])] "C"); reflexivity.
Defined.

(** C4 fails as stated: for the path [["A"; "C"]] against
    [{"A": {"B": []}}] the error names ["C"], and the key ["A"] traversed
    before it occurs nowhere in the message. *)
Lemma key_error_omits_the_traversed_path :
  lookup_path (JDict [("A", JDict [("B", JList [])])]) ["A"]
  = Some (JDict [("B", JList [])])
  /\ dict_lookup [("B", JList [])] "C" = None
  /\ exists msg,
       parse_json_response
         (JDict [("A", JDict [("B", JList [])])]) (Some ["A"; "C"])
       = Raise (KeyError msg)
       /\ mentions msg "C" = true
       /\ mentions msg "A" = false.
Proof.
  split; [reflexivity|]. split; [reflexivity|].
  eexists. split; [reflexivity|]. split; reflexivity.
Qed.

(** C5, as the code has it.  When the keys of a non-empty record path
    are all present and lead to a truthy value that is not an array (a
    non-empty mapping or string, a non-zero number, [True]), the parser
    raises the [TypeError]. *)
Theorem non_array_raises_type_error
    (document : json) (record_path : list string) (v : json) :
  record_path <> [] ->
  lookup_path document record_path = Some v ->
  is_list v = false ->
  truthy v = true ->
  parse_json_response document (Some record_path)
  = Raise (TypeError "Nested data is not a list.").
Proof.
  intros Hne Hl Hnl Ht. rewrite parse_nonempty by assumption.
  rewrite (walk_lookup_path _ _ _ Hne Hl), Ht. simpl.
  destruct v; try reflexivity. discriminate Hnl.
Qed.

Lemma non_array_raises_type_error_example :
  parse_json_response (JDict [("A", JDict [("x", JInt 1)])]) (Some ["A"])
  = Raise (TypeError "Nested data is not a list.").
Proof.
  apply (non_array_raises_type_error
           (JDict [("A", JDict [("x", JInt 1)])]) ["A"]
           (JDict [("x", JInt 1)]));
    [discriminate | reflexivity | reflexivity | reflexivity].
Defined.

(** C5 fails as stated: the path [["A"]] leads to the scalar [0] of
    [{"A": 0}], which is not an array, and the error is the [KeyError]. *)
Lemma falsy_non_array_raises_key_error :
  lookup_path (JDict [("A", JInt 0)]) ["A"] = Some (JInt 0)
  /\ is_list (JInt 0) = false
  /\ parse_json_response (JDict [("A", JInt 0)]) (Some ["A"])
     = Raise (KeyError "Key 'A' not found in the provided data.").
Proof. repeat split. Qed.

End PathErrors.

Section Outcomes.

Lemma walk_on_mappings (record_path : list string) (document : json) :
  mappings_along document record_path = true ->
  (exists key, In key record_path
               /\ walk document record_path = Raise (key_not_found key))
  \/ (exists y, walk document record_path = Return y
                /\ reaches document record_path y).
Proof.
  revert document; induction record_path as [|key rest IH]; intros doc H.
  - right. exists doc. split; [reflexivity | constructor].
  - simpl in H. destruct doc; try discriminate.
    cbn [walk get bind]. fold (looked_up items key).
    destruct (truthy (looked_up items key)) eqn:Ht; cbn [negb].
    + destruct (IH _ H) as [[k [Hin Hw]]|[y [Hw Hr]]].
      * left. exists k. split; [right; exact Hin | exact Hw].
      * right. exists y. split; [exact Hw | constructor; assumption].
    + left. exists key. split; [left; reflexivity | reflexivity].
Qed.

Lemma walk_off_mappings (record_path : list string) (document : json) :
  mappings_along document record_path = false ->
  exists x,
    is_dict x = false
    /\ walk document record_path
       = Raise (AttributeError
                  ("'" ++ type_name x ++ "' object has no attribute 'get'")).
Proof.
  revert document; induction record_path as [|key rest IH]; intros doc H.
  - discriminate.
  - simpl in H.
    destruct doc; try (eexists; split; [|reflexivity]; reflexivity).
    cbn [walk get bind]. fold (looked_up items key).
    destruct (truthy (looked_up items key)) eqn:Ht; [|discriminate].
    cbn [negb]. apply IH, H.
Qed.

(** A traversal of at least one key ends on a truthy value. *)
Lemma reaches_truthy (x y : json) (keys : list string) :
  reaches x keys y -> keys <> [] -> truthy y = true.
Proof.
  induction 1 as [x|d key rest x Ht Hr IH]; intros Hne.
  - contradiction.
  - destruct rest as [|k1 rest1].
    + inversion Hr; subst. exact Ht.
    + apply IH. discriminate.
Qed.

Lemma as_records_map (records : list dict) :
  as_records (map JDict records) = Some records.
Proof.
  induction records as [|r rest IH]; simpl; [reflexivity|].
  rewrite IH. reflexivity.
Qed.

Lemma simple_json_normalize_records (records : list dict) :
  _simple_json_normalize (map JDict records) "."
  = Some (map (fun r => _normalise_json_ordered r ".") records).
Proof.
  induction records as [|r rest IH]; cbn [map _simple_json_normalize];
    [reflexivity|].
  rewrite IH. reflexivity.
Qed.

Lemma json_normalize_records (records : list dict) :
  records <> [] ->
  json_normalize (map JDict records)
  = Return (frame_of_records
              (map (fun r => _normalise_json_ordered r ".") records)).
Proof.
  intros Hne. unfold json_normalize.
  rewrite simple_json_normalize_records.
  destruct records as [|r rest]; [contradiction | reflexivity].
Qed.

(** An array without arrays among its elements gives one row per
    element. *)
Lemma simple_json_normalize_rows (items : list json) :
  no_nested_list items = true ->
  exists rows,
    _simple_json_normalize items "." = Some rows
    /\ length rows = length items.
Proof.
  unfold no_nested_list.
  induction items as [|x items IH]; cbn [forallb _simple_json_normalize];
    intros H.
  - exists []. split; reflexivity.
  - apply andb_true_iff in H. destruct H as [Hx Hitems].
    destruct (IH Hitems) as [rows [-> Hlen]].
    destruct x; try discriminate Hx; eexists; (split; [reflexivity|]);
      simpl; rewrite Hlen; reflexivity.
Qed.

(** C9, as the code has it.  For a non-empty record path, as long as
    every value a key is looked up in is a mapping, the parser raises the
    [KeyError] [Key '<key>' not found in the provided data.] for one of
    the keys of the path, raises the [TypeError] [Nested data is not a
    list.], or hands the non-empty array it reached to [json_normalize],
    which gives a frame of one row per element when no element is itself
    an array.  As soon as a key is looked up in a truthy value that is
    not a mapping it raises the [AttributeError] ['<type>' object has no
    attribute 'get'].  With an empty or absent record path the outcome is
    that of the [DataFrame] constructor on the document, a [ValueError]
    when the document is a number, a boolean or a string. *)
Theorem flatten_outcomes (document : json) (record_path : list string) :
  (record_path <> [] ->
   mappings_along document record_path = true ->
   (exists key,
       In key record_path
       /\ parse_json_response document (Some record_path)
          = Raise (KeyError
                     ("Key '" ++ key ++ "' not found in the provided data.")))
   \/ parse_json_response document (Some record_path)
      = Raise (TypeError "Nested data is not a list.")
   \/ (exists items,
         reaches document record_path (JList items)
         /\ items <> []
         /\ parse_json_response document (Some record_path)
            = json_normalize items
         /\ (no_nested_list items = true ->
             exists df,
               parse_json_response document (Some record_path) = Return df
               /\ nrows df = length items)))
  /\ (record_path <> [] ->
      mappings_along document record_path = false ->
      exists x,
        is_dict x = false
        /\ parse_json_response document (Some record_path)
           = Raise (AttributeError
                      ("'" ++ type_name x
                       ++ "' object has no attribute 'get'")))
  /\ (record_path = [] ->
      parse_json_response document (Some record_path) = DataFrame_of document
      /\ parse_json_response document None = DataFrame_of document
      /\ (is_scalar document = true ->
          document <> JNull ->
          DataFrame_of document
          = Raise (ValueError "DataFrame constructor not properly called!"))).
Proof.
  split; [|split].
  - intros Hne H. rewrite parse_nonempty by assumption.
    destruct (walk_on_mappings _ _ H) as [[k [Hin Hw]]|[y [Hw Hr]]].
    + left. exists k. rewrite Hw. auto.
    + right. rewrite Hw. cbn [bind].
      destruct y; try (left; reflexivity).
      right. exists items. split; [exact Hr|].
      assert (Hitems : items <> []).
      { intros ->. pose proof (reaches_truthy _ _ _ Hr Hne) as Ht.
        discriminate Ht. }
      split; [exact Hitems|]. split; [reflexivity|].
      intros Hflat. unfold json_normalize.
      destruct (simple_json_normalize_rows _ Hflat) as [recs [-> Hlen]].
      destruct items as [|x items]; [contradiction|].
      eexists. split; [reflexivity|].
      unfold nrows, frame_of_records, dicts_to_array. cbn [rows].
      rewrite length_map. exact Hlen.
  - intros Hne H. rewrite parse_nonempty by assumption.
    destruct (walk_off_mappings _ _ H) as [x [Hx Hw]].
    exists x. rewrite Hw. auto.
  - intros ->. split; [reflexivity|]. split; [reflexivity|].
    intros Hs Hn. destruct document; try reflexivity; try discriminate Hs.
    contradiction.
Qed.

Lemma flatten_outcomes_example :
  (exists x,
      is_dict x = false
      /\ parse_json_response (JDict [("A", JInt 5)]) (Some ["A"; "B"])
         = Raise (AttributeError
                    ("'" ++ type_name x ++ "' object has no attribute 'get'")))
  /\ ((exists key,
          In key ["A"; "C"]
          /\ parse_json_response
               (JDict [("A", JDict [("B", JList [])])]) (Some ["A"; "C"])
             = Raise (KeyError
                        ("Key '" ++ key
                         ++ "' not found in the provided data.")))
      \/ parse_json_response
           (JDict [("A", JDict [("B", JList [])])]) (Some ["A"; "C"])
         = Raise (TypeError "Nested data is not a list.")
      \/ (exists items,
            reaches (JDict [("A", JDict [("B", JList [])])]) ["A"; "C"]
              (JList items)
            /\ items <> []
            /\ parse_json_response
                 (JDict [("A", JDict [("B", JList [])])]) (Some ["A"; "C"])
               = json_normalize items
            /\ (no_nested_list items = true ->
                exists df,
                  parse_json_response
                    (JDict [("A", JDict [("B", JList [])])])
                    (Some ["A"; "C"]) = Return df
                  /\ nrows df = length items))).
Proof.
  assert (Hne : ["A"; "B"] <> []) by (intros H; discriminate H).
  assert (Hne' : ["A"; "C"] <> []) by (intros H; discriminate H).
  split.
  - apply (proj1 (proj2 (flatten_outcomes (JDict [("A", JInt 5)])
                           ["A"; "B"])) Hne).
    reflexivity.
  - apply (proj1 (flatten_outcomes (JDict [("A", JDict [("B", JList [])])])
                    ["A"; "C"]) Hne').
    reflexivity.
Defined.

(** C9 fails as stated: a record path one key longer than the document
    is deep, or a document that is an array, ends in an [AttributeError],
    and a document that is a number, with no record path, in a
    [ValueError]; neither is one of the two errors of the parser. *)
Lemma attribute_error_escapes :
  parse_json_response (JDict [("A", JInt 5)]) (Some ["A"; "B"])
  = Raise (AttributeError "'int' object has no attribute 'get'")
  /\ parse_json_response (JList [JDict [("x", JInt 1)]]) (Some ["x"])
     = Raise (AttributeError "'list' object has no attribute 'get'")
  /\ parse_json_response (JInt 5) None
     = Raise (ValueError "DataFrame constructor not properly called!").
Proof. repeat split. Qed.

End Outcomes.

(* ================================================================== *)
(** * Properties of the frames *)
(* ================================================================== *)

Section Dicts.

Lemma dict_lookup_set (d : dict) (k c : string) (v : json) :
  dict_lookup (dict_set d k v) c
  = if String.eqb k c then Some v else dict_lookup d c.
Proof.
  induction d as [|[k0 v0] d IH]; simpl.
  - reflexivity.
  - destruct (String.eqb k0 k) eqn:E0; simpl.
    + apply String.eqb_eq in E0. subst k0.
      destruct (String.eqb k c); reflexivity.
    + destruct (String.eqb k0 c) eqn:E1.
      * apply String.eqb_eq in E1. subst k0.
        rewrite String.eqb_sym, E0. reflexivity.
      * exact IH.
Qed.

Lemma dict_lookup_in (d : dict) (c : string) (v : json) :
  dict_lookup d c = Some v -> In (c, v) d.
Proof.
  induction d as [|[k0 v0] d IH]; simpl; [discriminate|].
  destruct (String.eqb k0 c) eqn:E.
  - apply String.eqb_eq in E. intros [= ->]. left. congruence.
  - auto.
Qed.

Lemma dict_lookup_none (d : dict) (c : string) :
  dict_lookup d c = None <-> ~ In c (keys d).
Proof.
  induction d as [|[k0 v0] d IH]; simpl.
  - tauto.
  - destruct (String.eqb k0 c) eqn:E.
    + apply String.eqb_eq in E. split; [discriminate | tauto].
    + apply String.eqb_neq in E. tauto.
Qed.

Lemma dict_lookup_some (d : dict) (c : string) :
  In c (keys d) -> exists v, dict_lookup d c = Some v.
Proof.
  intros H. destruct (dict_lookup d c) as [v|] eqn:E; [eauto|].
  apply dict_lookup_none in E. contradiction.
Qed.

Variable name_of : list string * json -> string.

(** After a run of assignments an entry is an old one or one assigned. *)
Lemma lookup_fold_set (fs : list (list string * json)) (acc : dict)
    (c : string) (v : json) :
  dict_lookup (fold_left (set_field name_of) fs acc) c = Some v ->
  dict_lookup acc c = Some v
  \/ exists f, In f fs /\ name_of f = c /\ snd f = v.
Proof.
  revert acc; induction fs as [|f fs IH]; intros acc H; simpl in H.
  - left. exact H.
  - destruct (IH _ H) as [H1|[g [Hg1 Hg2]]].
    + unfold set_field in H1. rewrite dict_lookup_set in H1.
      destruct (String.eqb (name_of f) c) eqn:E.
      * apply String.eqb_eq in E. injection H1 as <-.
        right. exists f. simpl. auto.
      * left. exact H1.
    + right. exists g. simpl. tauto.
Qed.

Lemma keys_fold_set (fs : list (list string * json)) (acc : dict)
    (c : string) :
  In c (keys (fold_left (set_field name_of) fs acc))
  <-> In c (keys acc) \/ exists f, In f fs /\ name_of f = c.
Proof.
  revert acc; induction fs as [|f fs IH]; intros acc; simpl.
  - split; [auto | intros [H|[f [[] _]]]; exact H].
  - rewrite IH. clear IH.
    assert (Hset : In c (keys (set_field name_of acc f))
                   <-> In c (keys acc) \/ name_of f = c).
    { unfold set_field. split.
      - intros H. apply dict_lookup_some in H. destruct H as [v H].
        rewrite dict_lookup_set in H.
        destruct (String.eqb (name_of f) c) eqn:E.
        + right. apply String.eqb_eq, E.
        + left. destruct (dict_lookup acc c) eqn:E2; [|discriminate].
          apply dict_lookup_in in E2.
          apply (in_map fst) in E2. exact E2.
      - intros H.
        assert (Hl : dict_lookup (dict_set acc (name_of f) (snd f)) c <> None).
        { rewrite dict_lookup_set.
          destruct (String.eqb (name_of f) c) eqn:E; [discriminate|].
          destruct H as [H|H]; [|apply String.eqb_neq in E; contradiction].
          destruct (dict_lookup_some _ _ H) as [v ->]. discriminate. }
        destruct (dict_lookup (dict_set acc (name_of f) (snd f)) c) eqn:E;
          [|contradiction].
        apply dict_lookup_in in E. apply (in_map fst) in E. exact E. }
    rewrite Hset. split.
    + intros [[H|H]|[g [Hg1 Hg2]]]; eauto 6.
    + intros [H|[g [[<-|Hg1] Hg2]]]; eauto 6.
Qed.

End Dicts.

Section Flattening.

Lemma extend_empty (key : string) : extend "" key = key.
Proof.
  unfold extend, removeprefix. simpl.
  rewrite Nat.sub_0_r.
  replace (String.prefix "" key) with true by (destruct key; reflexivity).
  apply substring_all.
Qed.

Lemma name_from_nonempty (path : list string) (key_string : string) :
  key_string <> "" ->
  name_from key_string path = String.concat "." (key_string :: path).
Proof.
  revert key_string; induction path as [|key rest IH]; intros ks Hne.
  - reflexivity.
  - unfold name_from. simpl fold_left. fold (name_from (extend ks key) rest).
    unfold extend. destruct (String.eqb ks "") eqn:E.
    + apply String.eqb_eq in E. contradiction.
    + rewrite IH by (apply append_nonempty; exact Hne).
      simpl. destruct rest; simpl.
      * reflexivity.
      * rewrite append_assoc. reflexivity.
Qed.

(** The flattening joins the keys of a field with ["."]. *)
Lemma name_from_empty (path : list string) :
  name_from "" path = dot_joined path.
Proof.
  unfold dot_joined. induction path as [|key rest IH]; [reflexivity|].
  unfold name_from. simpl fold_left. rewrite extend_empty.
  fold (name_from key rest). simpl skip_empty.
  destruct (String.eqb key "") eqn:E.
  - apply String.eqb_eq in E. subst key. exact IH.
  - apply String.eqb_neq in E. apply name_from_nonempty, E.
Qed.

Lemma dot_joined_nonempty_keys (path : list string) :
  Forall (fun key => key <> "") path ->
  dot_joined path = String.concat "." path.
Proof.
  unfold dot_joined. intros H. destruct H as [|key rest Hk _]; [reflexivity|].
  simpl. apply String.eqb_neq in Hk. rewrite Hk. reflexivity.
Qed.

(** [_normalise_json] assigns the fields of [data] in order, each under
    its joined keys. *)
Lemma normalise_json_fields (data : json) :
  forall (key_string : string) (acc : dict),
    _normalise_json data key_string acc "."
    = fold_left (set_field (fun f => name_from key_string (fst f)))
        (fields data) acc.
Proof.
  induction data as [|b|n|f|s|l _|items IH] using json_nested_ind;
    intros ks acc; try reflexivity.
  cbn [_normalise_json fields].
  revert acc. induction IH as [|[k v] rest Hv _ IHrest]; intros acc.
  - reflexivity.
  - cbn [flat_map fst snd]. rewrite fold_left_app.
    rewrite <- IHrest. clear IHrest.
    simpl in Hv. rewrite Hv.
    f_equal.
    fold (extend ks k).
    generalize (fields v) as fs. intros fs. revert acc.
    induction fs as [|f fs IHfs]; intros acc; [reflexivity|].
    simpl. rewrite <- IHfs. reflexivity.
Qed.

Lemma fields_split (record : dict) (f : list string * json) :
  In f (fields (JDict record))
  <-> (exists k v, In (k, v) record /\ is_dict v = false /\ f = ([k], v))
      \/ In f (fields (JDict (filter (fun kv => is_dict (snd kv)) record))).
Proof.
  cbn [fields]. rewrite !in_flat_map. split.
  - intros [[k v] [Hin Hf]]. simpl in Hf.
    destruct (is_dict v) eqn:E.
    + right. exists (k, v). split; [|exact Hf].
      apply filter_In. auto.
    + left. exists k, v. split; [exact Hin|]. split; [exact E|].
      destruct v; try discriminate; simpl in Hf;
        destruct Hf as [<-|[]]; reflexivity.
  - intros [[k [v [Hin [Hd ->]]]]|[[k v] [Hin Hf]]].
    + exists (k, v). split; [exact Hin|].
      destruct v; try discriminate; simpl; auto.
    + apply filter_In in Hin. exists (k, v). tauto.
Qed.

Lemma dot_joined_single (k : string) : dot_joined [k] = k.
Proof.
  unfold dot_joined. simpl. destruct (String.eqb k "") eqn:E; [|reflexivity].
  apply String.eqb_eq in E. subst k. reflexivity.
Qed.

Lemma in_dict_set (d : dict) (k c : string) (x v : json) :
  In (c, v) (dict_set d k x) -> In (c, v) d \/ (k = c /\ x = v).
Proof.
  induction d as [|[k1 v1] d IHd]; simpl; intros Hd.
  - destruct Hd as [[= <- <-]|[]]. auto.
  - destruct (String.eqb k1 k) eqn:E.
    + apply String.eqb_eq in E. subst k1.
      destruct Hd as [[= <- <-]|Hd]; [auto|].
      left. right. exact Hd.
    + destruct Hd as [Hd|Hd]; [left; left; exact Hd|].
      destruct (IHd Hd) as [Hd'|Hd']; [|auto].
      left. right. exact Hd'.
Qed.

Lemma in_fold_set (name_of : list string * json -> string)
    (fs : list (list string * json)) (acc : dict) (c : string) (v : json) :
  In (c, v) (fold_left (set_field name_of) fs acc) ->
  In (c, v) acc \/ exists f, In f fs /\ name_of f = c /\ snd f = v.
Proof.
  revert acc; induction fs as [|f fs IHfs]; intros acc Hacc; simpl in Hacc.
  - auto.
  - destruct (IHfs _ Hacc) as [H1|[g [Hg1 Hg2]]].
    + destruct (in_dict_set _ _ _ _ _ H1) as [H2|[H2 H3]].
      * auto.
      * right. exists f. simpl. auto.
    + right. exists g. simpl. tauto.
Qed.

Lemma keys_dict_merge (b a : dict) (c : string) :
  In c (keys (dict_merge a b)) <-> In c (keys a) \/ In c (keys b).
Proof.
  unfold dict_merge. revert a.
  induction b as [|[k v] b IHb]; intros a; simpl.
  - tauto.
  - rewrite IHb. clear IHb.
    pose proof (keys_fold_set (fun f => k) [([], v)] a c) as Hs.
    simpl in Hs. unfold set_field in Hs. simpl in Hs. rewrite Hs.
    split.
    + intros [[H|[f [[<-|[]] H]]]|H]; auto.
    + intros [H|[H|H]]; auto. left. right. exists ([], v). auto.
Qed.

Lemma lookup_dict_merge (b a : dict) (c : string) (v : json) :
  dict_lookup (dict_merge a b) c = Some v -> In (c, v) a \/ In (c, v) b.
Proof.
  unfold dict_merge. revert a.
  induction b as [|[k0 v0] b IHb]; intros a Hb; simpl in Hb.
  - left. apply dict_lookup_in, Hb.
  - destruct (IHb _ Hb) as [H1|H1].
    + destruct (in_dict_set _ _ _ _ _ H1) as [H2|[<- <-]].
      * auto.
      * right. left. reflexivity.
    + right. right. exact H1.
Qed.

(** A flattened record has an entry for each field of the record... *)
Lemma keys_normalise_json_ordered (record : dict) (c : string) :
  In c (keys (_normalise_json_ordered record ".")) <-> In c (field_names record).
Proof.
  unfold _normalise_json_ordered, field_names.
  rewrite normalise_json_fields, keys_dict_merge, keys_fold_set.
  rewrite in_map_iff. simpl keys at 2.
  split.
  - intros [H|[[]|[f [Hf Hn]]]].
    + unfold keys in H. apply in_map_iff in H. destruct H as [[k v] [<- H]].
      apply filter_In in H. destruct H as [H Hd]. simpl in Hd.
      exists ([k], v). split; [apply dot_joined_single|].
      apply fields_split. left. exists k, v.
      split; [exact H|]. split; [|reflexivity].
      apply negb_true_iff, Hd.
    + exists f. rewrite <- name_from_empty. split; [exact Hn|].
      apply fields_split. right. exact Hf.
  - intros [f [Hn Hf]]. apply fields_split in Hf.
    destruct Hf as [[k [v [Hin [Hd ->]]]]|Hf].
    + left. simpl in Hn. rewrite dot_joined_single in Hn. subst c.
      unfold keys. apply in_map_iff. exists (k, v). split; [reflexivity|].
      apply filter_In. split; [exact Hin|]. simpl. rewrite Hd. reflexivity.
    + right. right. exists f. rewrite name_from_empty. auto.
Qed.

(** ... and every entry holds the value of a field of that name. *)
Lemma lookup_normalise_json_ordered (record : dict) (c : string) (v : json) :
  dict_lookup (_normalise_json_ordered record ".") c = Some v ->
  exists path, In (path, v) (fields (JDict record)) /\ dot_joined path = c.
Proof.
  unfold _normalise_json_ordered. rewrite normalise_json_fields.
  intros H. apply lookup_dict_merge in H. destruct H as [Hin|Hin].
  - apply filter_In in Hin. destruct Hin as [Hin Hd]. simpl in Hd.
    exists [c]. split; [|apply dot_joined_single].
    apply fields_split. left. exists c, v.
    split; [exact Hin|]. split; [|reflexivity]. apply negb_true_iff, Hd.
  - apply in_fold_set in Hin. destruct Hin as [[]|[f [Hf [Hn Hv]]]].
    exists (fst f). rewrite <- name_from_empty. split; [|exact Hn].
    apply fields_split. right. destruct f as [p x]. simpl in *. subst x.
    exact Hf.
Qed.

End Flattening.

Section Frames.

Lemma mem_In (k : string) (l : list string) : mem k l = true <-> In k l.
Proof.
  unfold mem. rewrite existsb_exists. split.
  - intros [x [Hin Hx]]. apply String.eqb_eq in Hx. subst x. exact Hin.
  - intros H. exists k. split; [exact H | apply String.eqb_refl].
Qed.

Lemma In_add_unique (ks uniques : list string) (c : string) :
  In c (fold_left add_unique ks uniques) <-> In c uniques \/ In c ks.
Proof.
  revert uniques; induction ks as [|k ks IH]; intros u; simpl.
  - tauto.
  - rewrite IH. unfold add_unique.
    destruct (mem k u) eqn:E.
    + apply mem_In in E. split; [tauto|].
      intros [H|[<-|H]]; auto.
    + rewrite in_app_iff. simpl. tauto.
Qed.

Lemma In_fast_unique (gen : list (list string)) (uniques : list string)
    (c : string) :
  In c (fold_left (fun u ks => fold_left add_unique ks u) gen uniques)
  <-> In c uniques \/ exists ks, In ks gen /\ In c ks.
Proof.
  revert uniques; induction gen as [|ks gen IH]; intros u; simpl.
  - split; [auto | intros [H|[ks [[] _]]]; exact H].
  - rewrite IH, In_add_unique. split.
    + intros [[H|H]|[ks' [H1 H2]]]; eauto 6.
    + intros [H|[ks' [[<-|H1] H2]]]; eauto 6.
Qed.

(** The columns of a frame are the keys of its records. *)
Lemma columns_frame_of_records (data : list dict) (c : string) :
  In c (columns (frame_of_records data))
  <-> exists r, In r data /\ In c (keys r).
Proof.
  unfold frame_of_records, fast_unique_multiple_list_gen. cbn [columns].
  rewrite In_fast_unique. split.
  - intros [[]|[ks [H1 H2]]]. apply in_map_iff in H1.
    destruct H1 as [r [<- Hr]]. eauto.
  - intros [r [H1 H2]]. right. exists (keys r). split; [|exact H2].
    apply in_map, H1.
Qed.

Lemma nrows_frame_of_records (data : list dict) :
  nrows (frame_of_records data) = length data.
Proof. unfold nrows, frame_of_records, dicts_to_array. simpl. apply length_map. Qed.

Lemma index_of_nth (l : list string) (c : string) :
  In c l -> exists j, index_of c l = Some j /\ nth_error l j = Some c.
Proof.
  induction l as [|x l IH]; simpl; [contradiction|].
  intros H. destruct (String.eqb x c) eqn:E.
  - apply String.eqb_eq in E. subst x. exists O. auto.
  - destruct H as [->|H]; [rewrite String.eqb_refl in E; discriminate|].
    destruct (IH H) as [j [-> Hj]]. exists (S j). auto.
Qed.

(** The cell of a record under a column is the entry of the record. *)
Lemma cell_at_frame_of_records (data : list dict) (i : nat) (r : dict)
    (c : string) :
  nth_error data i = Some r ->
  In c (columns (frame_of_records data)) ->
  cell_at (frame_of_records data) i c = Some (cell_of r c).
Proof.
  intros Hi Hc. unfold cell_at.
  destruct (index_of_nth _ _ Hc) as [j [-> Hj]].
  unfold frame_of_records in *. cbn [rows columns] in *.
  unfold dicts_to_array. rewrite nth_error_map, Hi. simpl.
  rewrite nth_error_map, Hj. reflexivity.
Qed.

End Frames.

Section Flatten.




End Flatten.

Section WholeDocument.

(** C8, as the code has it.  With an empty or absent record path the
    parser hands the whole document to the [DataFrame] constructor.  An
    array of records gives a frame with one row per record and the keys
    of the records as columns; a non-empty mapping of scalars is refused
    with a [ValueError]. *)
Theorem whole_document_as_frame
    (document : json) (record_path : option (list string)) :
  record_path = None \/ record_path = Some [] ->
  parse_json_response document record_path = DataFrame_of document
  /\ (forall records,
         document = JList (map JDict records) ->
         exists df,
           parse_json_response document record_path = Return df
           /\ nrows df = length records
           /\ forall c, In c (columns df)
                        <-> exists r, In r records /\ In c (keys r))
  /\ (forall items,
         document = JDict items ->
         items <> [] ->
         forallb (fun kv => is_scalar (snd kv)) items = true ->
         parse_json_response document record_path
         = Raise (ValueError
                    "If using all scalar values, you must pass an index")).
Proof.
  intros Hp.
  assert (H0 : parse_json_response document record_path
               = DataFrame_of document)
    by (destruct Hp as [->| ->]; reflexivity).
  rewrite H0. split; [reflexivity|]. split.
  - intros records ->. destruct records as [|r rest].
    + exists empty_frame. split; [reflexivity|]. split; [reflexivity|].
      intros c. split; [intros [] | intros [r [[] _]]].
    + exists (frame_of_records (r :: rest)).
      split.
      * unfold DataFrame_of.
        change (map JDict (r :: rest)) with (JDict r :: map JDict rest).
        cbv iota.
        change (JDict r :: map JDict rest) with (map JDict (r :: rest)).
        rewrite as_records_map. reflexivity.
      * split; [apply nrows_frame_of_records|].
        intros c. apply columns_frame_of_records.
  - intros items -> Hne Hs. destruct items as [|kv rest]; [contradiction|].
    unfold DataFrame_of. rewrite Hs. reflexivity.
Qed.

Lemma whole_document_as_frame_example :
  exists df,
    parse_json_response
      (JList [JDict [("x", JInt 1)]; JDict [("y", JInt 2)]]) None
    = Return df
    /\ nrows df = 2%nat.
Proof.
  destruct (proj1 (proj2 (whole_document_as_frame
                            (JList [JDict [("x", JInt 1)];
                                    JDict [("y", JInt 2)]])
                            None (or_introl eq_refl)))
              [[("x", JInt 1)]; [("y", JInt 2)]] eq_refl)
    as [df [H1 [H2 _]]].
  exists df. split; [exact H1 | exact H2].
Defined.

(** C8 fails as stated: [{"x": 1}] is a mapping of scalars, and with no
    record path the parser raises a [ValueError]. *)
Lemma mapping_of_scalars_is_refused :
  forallb (fun kv => is_scalar (snd kv)) [("x", JInt 1)] = true
  /\ parse_json_response (JDict [("x", JInt 1)]) None
     = Raise (ValueError "If using all scalar values, you must pass an index")
  /\ parse_json_response (JDict [("x", JInt 1)]) (Some [])
     = Raise (ValueError "If using all scalar values, you must pass an index").
Proof. repeat split. Qed.

(** With no record path nothing is flattened: a nested mapping stays in
    its cell. *)
Example whole_document_keeps_nested_values :
  parse_json_response (JList [JDict [("a", JDict [("b", JInt 1)])]]) None
  = Return (mkDataFrame ["a"] [[From (JDict [("b", JInt 1)])]]).
Proof. reflexivity. Qed.

End WholeDocument.

(* ================================================================== *)
(** * Properties of the endpoint descriptors and of retrieval *)
(* ================================================================== *)

Section Retrieval.

(** C7: what the code does.  Whatever parameters are supplied (or none),
    [create_endpoint_url] on the daily fuel-mix descriptor raises
    [KeyError('day')]: the parameters reach [format] as one positional
    argument, and the field [{day}] is looked up among the keyword
    arguments, of which there are none. *)
Theorem create_endpoint_url_raises (parameters : option json) :
  create_endpoint_url DailyFuelMix parameters = Raise (KeyError "day").
Proof. destruct parameters; reflexivity. Qed.

(** Passing the parameters as keyword arguments gives the path. *)
Example format_with_keywords :
  Str.format (endpoint_url DailyFuelMix) []
    [("day", Str.Value (JStr "20231201"))]
  = Return "genfuelmix/day/20231201".
Proof. reflexivity. Qed.

(** The two cases of [tests/api_client_tests.py]. *)
Example test_default_dotenv_path (remote : Request -> outcome Response) :
  fst (load_environment_secrets
         (mkWorld (fun name =>
                     if String.eqb name "API_USERNAME" then Some "user123"
                     else if String.eqb name "API_PASSWORD" then Some "pass123"
                     else None)
            remote []))
  = Return ("user123", "pass123").
Proof. reflexivity. Qed.

Example test_missing_credentials (remote : Request -> outcome Response) :
  fst (load_environment_secrets (mkWorld (fun _ => None) remote []))
  = Raise (RuntimeError "API credentials are required but not set.").
Proof. reflexivity. Qed.

Lemma validate_20231201 : validate_date_format "20231201" = Return tt.
Proof. reflexivity. Qed.

(** C6.  [retrieve_data("20231201")] on the daily fuel-mix retriever
    sends exactly one request, whatever the remote end answers: a GET of
    the base URL followed by [/genfuelmix/day/20231201.json], with the
    header [Accept: application/json], the credentials of the client as
    basic authentication and no query parameters.  When the answer has a
    status that is not an error and a JSON body, the call returns the
    decoded body; in general its outcome is that of the exchange, then of
    [raise_for_status], then of [response.json()]. *)
Theorem retrieve_data_sends_one_get (client : ISONEClient) (w : World) :
  sent (snd (retrieve_data (mkDailyFuelMixDataRetriever client) "20231201" w))
  = (sent w ++ [fuel_mix_request_20231201 (client_auth client)])%list
  /\ (forall response body,
         remote w (fuel_mix_request_20231201 (client_auth client))
         = Return response ->
         status_passes response = true ->
         decoded response = Some body ->
         fst (retrieve_data (mkDailyFuelMixDataRetriever client) "20231201" w)
         = Return (Parsed body))
  /\ fst (retrieve_data (mkDailyFuelMixDataRetriever client) "20231201" w)
     = bind (remote w (fuel_mix_request_20231201 (client_auth client)))
         (fun response =>
            bind (raise_for_status response)
              (fun _ =>
                 bind (response_json response) (fun j => Return (Parsed j)))).
Proof.
  cbn [retrieve_data DailyFuelMix_retriever]. unfold daily_retrieve_data.
  unfold io_bind at 1. unfold lift at 1. rewrite validate_20231201.
  cbn [daily_api_client].
  unfold get_data, io_bind, requests_get, lift, ret.
  change (BASE_URL ++ "/" ++ ("genfuelmix/day/" ++ "20231201") ++ "." ++ "json")
    with (BASE_URL ++ "/" ++ "genfuelmix/day/20231201.json").
  change [("Accept", "application/" ++ "json")]
    with [("Accept", "application/json")].
  fold (fuel_mix_request_20231201 (client_auth client)).
  destruct (remote w (fuel_mix_request_20231201 (client_auth client)))
    as [response|e|] eqn:Hr; cbn [fst snd sent bind].
  - unfold raise_for_status, status_passes, response_json.
    split; [|split].
    + destruct ((400 <=? status_code response)
                && (status_code response <? 600))%Z; cbn [fst snd sent];
        [reflexivity|].
      cbn [String.eqb Ascii.eqb Bool.eqb].
      destruct (decoded response); reflexivity.
    + intros response' body [= <-] Hs Hd.
      replace ((400 <=? status_code response)
               && (status_code response <? 600))%Z with false by lia.
      cbn [String.eqb Ascii.eqb Bool.eqb fst]. rewrite Hd. reflexivity.
    + destruct ((400 <=? status_code response)
                && (status_code response <? 600))%Z; cbn [fst bind];
        [reflexivity|].
      cbn [String.eqb Ascii.eqb Bool.eqb].
      destruct (decoded response); reflexivity.
  - split; [reflexivity | split; [discriminate | reflexivity]].
  - split; [reflexivity | split; [discriminate | reflexivity]].
Qed.

Lemma retrieve_data_sends_one_get_example :
  fst (retrieve_data
         (mkDailyFuelMixDataRetriever
            (mkISONEClient (mkHTTPBasicAuth "user123" "pass123")))
         "20231201"
         (mkWorld (fun _ => None)
            (fun _ => Return (mkResponse 200 "{}" (Some (JDict []))))
            []))
  = Return (Parsed (JDict [])).
Proof.
  apply (proj1 (proj2 (retrieve_data_sends_one_get
                  (mkISONEClient (mkHTTPBasicAuth "user123" "pass123"))
                  (mkWorld (fun _ => None)
                     (fun _ => Return (mkResponse 200 "{}" (Some (JDict []))))
                     [])))
           (mkResponse 200 "{}" (Some (JDict []))) (JDict []));
    reflexivity.
Defined.

End Retrieval.

(* ================================================================== *)
(** * Properties of the date validator *)
(* ================================================================== *)

Section Digits.

Local Open Scope Z_scope.

Lemma is_digit_inv (c : ascii) :
  is_digit c = true ->
  In c ["0"; "1"; "2"; "3"; "4"; "5"; "6"; "7"; "8"; "9"]%char.
Proof.
  destruct c as [[] [] [] [] [] [] [] []]; intros H;
    try (vm_compute in H; discriminate H); simpl; auto 12.
Qed.

Lemma digit_val_range (c : ascii) :
  is_digit c = true ->
  0 <= digit_val c <= 9 /\ digit_char (digit_val c) = c
  /\ Ascii.eqb c " " = false.
Proof.
  intros H. apply is_digit_inv in H. simpl in H.
  repeat (destruct H as [<-|H]; [vm_compute; intuition discriminate|]).
  contradiction.
Qed.

Lemma digit_char_range (k : Z) :
  0 <= k <= 9 -> is_digit (digit_char k) = true /\ digit_val (digit_char k) = k.
Proof.
  intros H.
  assert (Hk : k = 0 \/ k = 1 \/ k = 2 \/ k = 3 \/ k = 4
               \/ k = 5 \/ k = 6 \/ k = 7 \/ k = 8 \/ k = 9) by lia.
  repeat (destruct Hk as [->|Hk]; [split; reflexivity|]).
  subst k. split; reflexivity.
Qed.

End Digits.

Section DateValidator.

Local Open Scope Z_scope.

Lemma leap_year_is_leap (y : Z) : leap_year y = _is_leap y.
Proof.
  unfold leap_year, _is_leap.
  destruct (y mod 4 =? 0) eqn:E4, (y mod 100 =? 0) eqn:E100,
    (y mod 400 =? 0) eqn:E400; try reflexivity; exfalso;
    rewrite ?Z.eqb_eq, ?Z.eqb_neq in *;
    apply E4; clear - E400;
    pose proof (Z.div_mod y 4 ltac:(lia));
    pose proof (Z.mod_pos_bound y 4 ltac:(lia));
    pose proof (Z.div_mod y 400 ltac:(lia)); lia.
Qed.

Lemma month_length_days_in_month (y m : Z) :
  1 <= m <= 12 -> month_length y m = _days_in_month y m.
Proof.
  intros H. unfold month_length, _days_in_month. rewrite leap_year_is_leap.
  assert (Hm : m = 1 \/ m = 2 \/ m = 3 \/ m = 4 \/ m = 5 \/ m = 6 \/ m = 7
               \/ m = 8 \/ m = 9 \/ m = 10 \/ m = 11 \/ m = 12) by lia.
  repeat (destruct Hm as [->|Hm]; [simpl; try reflexivity|]);
    try (subst m; reflexivity).
Qed.

Lemma month_length_le_31 (y m : Z) : month_length y m <= 31.
Proof.
  unfold month_length.
  destruct ((m =? 4) || (m =? 6) || (m =? 9) || (m =? 11)); [lia|].
  destruct (m =? 2); [destruct (leap_year y)|]; lia.
Qed.

(** The date fields are accepted exactly for the days of the calendar. *)
Lemma check_date_fields_calendar (y m d : Z) :
  _check_date_fields y m d =
    if calendar_date y m d then Return (mkDatetime y m d)
    else _check_date_fields y m d.
Proof.
  destruct (calendar_date y m d) eqn:E; [|reflexivity].
  unfold calendar_date in E. rewrite !andb_true_iff in E.
  destruct E as [[[[[E1 E2] E3] E4] E5] E6].
  unfold _check_date_fields, MINYEAR, MAXYEAR.
  rewrite E1, E2, E3, E4, E5. cbn [andb negb].
  rewrite <- month_length_days_in_month by lia. rewrite E6. reflexivity.
Qed.

Lemma check_date_fields_return (y m d : Z) (dt : datetime) :
  _check_date_fields y m d = Return dt ->
  calendar_date y m d = true /\ dt = mkDatetime y m d.
Proof.
  unfold _check_date_fields, calendar_date, MINYEAR, MAXYEAR.
  destruct ((1 <=? y) && (y <=? 9999)) eqn:E1; cbn [negb]; [|discriminate].
  destruct ((1 <=? m) && (m <=? 12)) eqn:E2; cbn [negb]; [|discriminate].
  destruct ((1 <=? d) && (d <=? _days_in_month y m)) eqn:E3; cbn [negb];
    [|discriminate].
  intros [= <-]. split; [|reflexivity].
  rewrite month_length_days_in_month by lia.
  rewrite !andb_true_iff in *. tauto.
Qed.

Lemma regex_month_day (m1 m2 d1 d2 : ascii) :
  is_digit m1 = true -> is_digit m2 = true ->
  is_digit d1 = true -> is_digit d2 = true ->
  1 <= 10 * digit_val m1 + digit_val m2 <= 12 ->
  1 <= 10 * digit_val d1 + digit_val d2 <= 31 ->
  regex_match [group_m; group_d]
    (String m1 (String m2 (String d1 (String d2 ""))))
  = Some ([String m1 (String m2 ""); String d1 (String d2 "")], "").
Proof.
  intros H1 H2 H3 H4.
  apply is_digit_inv in H1, H2, H3, H4. simpl in H1, H2, H3, H4.
  intros Hm.
  repeat (destruct H1 as [<-|H1]; [|]); try contradiction;
  repeat (destruct H2 as [<-|H2]; [|]); try contradiction;
  try (exfalso; vm_compute in Hm; clear - Hm; intuition congruence);
  clear Hm; intros Hd;
  repeat (destruct H3 as [<-|H3]; [|]); try contradiction;
  repeat (destruct H4 as [<-|H4]; [|]); try contradiction;
  try (exfalso; vm_compute in Hd; clear - Hd; intuition congruence);
  reflexivity.
Qed.

(** Rendering the number a digit string stands for gives the string
    back. *)
Lemma zero_filled_int_of_digits (s : string) :
  forall (w : nat) (acc : Z),
    all_chars is_digit s = true ->
    zero_filled (w + String.length s) (int_of_digits acc s)
    = zero_filled w acc ++ s.
Proof.
  induction s as [|c s IH]; intros w acc H;
    cbn [int_of_digits String.length].
  - rewrite Nat.add_0_r, append_empty_r. reflexivity.
  - cbn [all_chars] in H. apply andb_true_iff in H. destruct H as [Hc Hs].
    destruct (digit_val_range c Hc) as [Hr [Hdc _]].
    rewrite Nat.add_succ_r. change (S (w + String.length s))
      with (S w + String.length s)%nat.
    rewrite IH by exact Hs. cbn [zero_filled].
    replace ((10 * acc + digit_val c) / 10) with acc
      by (apply Z.div_unique with (r := digit_val c); lia).
    replace ((10 * acc + digit_val c) mod 10) with (digit_val c)
      by (apply Z.mod_unique with (q := acc); lia).
    rewrite Hdc, append_assoc. reflexivity.
Qed.

Lemma zero_filled_text (s : string) :
  all_chars is_digit s = true ->
  zero_filled (String.length s) (int_of_digits 0 s) = s.
Proof.
  intros H. apply (zero_filled_int_of_digits s 0 0 H).
Qed.

Lemma int_digits (c : ascii) (s : string) :
  is_digit c = true -> int (String c s) = int_of_digits 0 (String c s).
Proof.
  intros H. destruct (digit_val_range c H) as [_ [_ Hsp]].
  unfold int. rewrite Hsp. reflexivity.
Qed.

(** The digit [0] is the one that stands for nothing. *)
Lemma digit_val_zero (c : ascii) :
  is_digit c = true -> (Ascii.eqb c "0" = true <-> digit_val c = 0).
Proof.
  intros H. apply is_digit_inv in H. simpl in H.
  repeat (destruct H as [<-|H];
          [vm_compute; split; intros E; (reflexivity || discriminate E)|]).
  contradiction.
Qed.

(** [str] of a year from 1000 on is its four digits. *)
Lemma year_text_large (y : Z) :
  1000 <= y <= 9999 -> str_of_int y = zero_filled 4 y.
Proof.
  intros H.
  assert (Hall : forallb
                   (fun n => String.eqb (str_of_int (Z.of_nat n))
                               (zero_filled 4 (Z.of_nat n)))
                   (seq 1000 (Z.to_nat 9000)) = true)
    by (vm_compute; reflexivity).
  rewrite forallb_forall in Hall.
  specialize (Hall (Z.to_nat y)). rewrite Z2Nat.id in Hall by lia.
  apply String.eqb_eq, Hall, in_seq. lia.
Qed.

(** [str] of a year below 1000 starts with a digit other than [0]. *)
Lemma year_text_small (y : Z) :
  1 <= y <= 999 -> four_digit_year (str_of_int y) = true.
Proof.
  intros H.
  assert (Hall : forallb (fun n => four_digit_year (str_of_int (Z.of_nat n)))
                   (seq 1 999) = true)
    by (vm_compute; reflexivity).
  rewrite forallb_forall in Hall.
  specialize (Hall (Z.to_nat y)). rewrite Z2Nat.id in Hall by lia.
  apply Hall, in_seq. lia.
Qed.

Lemma four_digit_year_append (s t : string) :
  four_digit_year s = true -> four_digit_year (s ++ t) = true.
Proof. destruct s; [discriminate | intros H; exact H]. Qed.

(** What [strftime] renders for a year below 1000 starts with a digit
    other than [0]. *)
Lemma strftime_small_year (y m d : Z) :
  1 <= y <= 999 -> four_digit_year (strftime (mkDatetime y m d)) = true.
Proof.
  intros H. unfold strftime. cbn [year].
  apply four_digit_year_append, year_text_small, H.
Qed.

(** What [strftime] renders for a year from 1000 on is zero-filled. *)
Lemma strftime_large_year (y m d : Z) :
  1000 <= y <= 9999 ->
  strftime (mkDatetime y m d)
  = zero_filled 4 y ++ zero_filled 2 m ++ zero_filled 2 d.
Proof.
  intros H. unfold strftime. cbn [year month day].
  rewrite year_text_large by exact H. reflexivity.
Qed.

(** A canonical date is parsed into the fields its digits stand for; its
    first digit is not [0] exactly for a year from 1000 on. *)
Lemma strptime_canonical (s : string) :
  canonical_date s = true ->
  exists y m d,
    strptime s = Return (mkDatetime y m d)
    /\ calendar_date y m d = true
    /\ s = zero_filled 4 y ++ zero_filled 2 m ++ zero_filled 2 d
    /\ (four_digit_year s = true <-> 1000 <= y).
Proof.
  intros H.
  destruct s as [|y1 [|y2 [|y3 [|y4 [|m1 [|m2 [|d1 [|d2 [|c9 s]]]]]]]]];
    try discriminate H.
  unfold canonical_date in H. cbn [forallb] in H.
  rewrite !andb_true_iff in H.
  destruct H as [[Hy1 [Hy2 [Hy3 [Hy4 [Hm1 [Hm2 [Hd1 [Hd2 _]]]]]]]] Hcal].
  set (y := 1000 * digit_val y1 + 100 * digit_val y2
            + 10 * digit_val y3 + digit_val y4) in *.
  set (m := 10 * digit_val m1 + digit_val m2) in *.
  set (d := 10 * digit_val d1 + digit_val d2) in *.
  assert (Hfields := Hcal). unfold calendar_date in Hfields.
  rewrite !andb_true_iff, !Z.leb_le in Hfields.
  pose proof (month_length_le_31 y m) as H31.
  exists y, m, d.
  assert (Hre : regex_match format_regex
                  (String y1 (String y2 (String y3 (String y4
                     (String m1 (String m2 (String d1 (String d2 ""))))))))
                = Some ([String y1 (String y2 (String y3 (String y4 "")));
                         String m1 (String m2 "");
                         String d1 (String d2 "")], "")).
  { unfold format_regex.
    change (regex_match (group_Y :: [group_m; group_d])
              (String y1 (String y2 (String y3 (String y4
                 (String m1 (String m2 (String d1 (String d2 "")))))))))
      with (match match_alternative [is_digit; is_digit; is_digit; is_digit]
                    (String y1 (String y2 (String y3 (String y4
                       (String m1 (String m2 (String d1 (String d2 ""))))))))
            with
            | Some (text, rest) =>
                match regex_match [group_m; group_d] rest with
                | Some (texts, tail) => Some (text :: texts, tail)
                | None => None
                end
            | None => None
            end).
    cbn [match_alternative]. rewrite Hy1, Hy2, Hy3, Hy4.
    rewrite regex_month_day by (assumption || (subst m d; lia)).
    reflexivity. }
  assert (EY : int_of_digits 0
                 (String y1 (String y2 (String y3 (String y4 "")))) = y)
    by (subst y; cbn [int_of_digits]; lia).
  assert (EM : int_of_digits 0 (String m1 (String m2 "")) = m)
    by (subst m; cbn [int_of_digits]; lia).
  assert (ED : int_of_digits 0 (String d1 (String d2 "")) = d)
    by (subst d; cbn [int_of_digits]; lia).
  split; [|split; [exact Hcal|split]].
  - unfold strptime. rewrite Hre. rewrite !int_digits by assumption.
    rewrite EY, EM, ED, check_date_fields_calendar, Hcal. reflexivity.
  - pose proof (zero_filled_text
                  (String y1 (String y2 (String y3 (String y4 ""))))) as TY.
    pose proof (zero_filled_text (String m1 (String m2 ""))) as TM.
    pose proof (zero_filled_text (String d1 (String d2 ""))) as TD.
    cbn [String.length all_chars] in TY, TM, TD.
    rewrite Hy1, Hy2, Hy3, Hy4, EY in TY. rewrite Hm1, Hm2, EM in TM.
    rewrite Hd1, Hd2, ED in TD.
    rewrite (TY eq_refl), (TM eq_refl), (TD eq_refl). reflexivity.
  - cbn [four_digit_year]. rewrite negb_true_iff.
    pose proof (digit_val_zero y1 Hy1) as Hz.
    destruct (digit_val_range y1 Hy1) as [R1 _].
    destruct (digit_val_range y2 Hy2) as [R2 _].
    destruct (digit_val_range y3 Hy3) as [R3 _].
    destruct (digit_val_range y4 Hy4) as [R4 _].
    destruct (Ascii.eqb y1 "0").
    + split; [discriminate|]. intros Hy.
      assert (digit_val y1 = 0) by (apply Hz; reflexivity). subst y. lia.
    + split; [|reflexivity]. intros _.
      assert (digit_val y1 <> 0) by (intros E; apply Hz in E; discriminate E).
      subst y. lia.
Qed.

(** A canonical date whose year has four digits, the first of them not
    [0], is rendered back unchanged. *)
Lemma canonical_date_accepted (s : string) :
  canonical_date s = true -> four_digit_year s = true ->
  validate_date_format s = Return tt.
Proof.
  intros Hc Hf.
  destruct (strptime_canonical s Hc) as [y [m [d [Hp [Hcal [Hs Hy]]]]]].
  unfold validate_date_format. rewrite Hp.
  assert (Hr : 1000 <= y <= 9999).
  { split; [apply Hy, Hf|]. unfold calendar_date in Hcal.
    rewrite !andb_true_iff, !Z.leb_le in Hcal. lia. }
  rewrite strftime_large_year by exact Hr.
  rewrite <- Hs, String.eqb_refl. reflexivity.
Qed.

(** A canonical date of a year below 1000 is parsed, and refused by the
    comparison with its rendering, which has lost the zeros in front of
    the year. *)
Lemma canonical_small_year_refused (s : string) :
  canonical_date s = true -> four_digit_year s = false ->
  validate_date_format s
  = Raise (ValueError
             ("The date " ++ s ++ " is not in the strict format YYYYMMDD.")).
Proof.
  intros Hc Hf.
  destruct (strptime_canonical s Hc) as [y [m [d [Hp [Hcal [Hs Hy]]]]]].
  unfold validate_date_format. rewrite Hp.
  assert (Hr : 1 <= y <= 999).
  { unfold calendar_date in Hcal.
    rewrite !andb_true_iff, !Z.leb_le in Hcal.
    destruct (Z_lt_le_dec y 1000) as [Hlt|Hge]; [lia|].
    apply Hy in Hge. congruence. }
  destruct (String.eqb (strftime (mkDatetime y m d)) s) eqn:E;
    [|reflexivity].
  apply String.eqb_eq in E.
  pose proof (strftime_small_year y m d Hr) as Hsm.
  rewrite E in Hsm. congruence.
Qed.

Lemma strptime_outcome (s : string) :
  (exists dt, strptime s = Return dt
              /\ calendar_date (year dt) (month dt) (day dt) = true)
  \/ (exists msg, strptime s = Raise (ValueError msg)).
Proof.
  unfold strptime.
  destruct (regex_match format_regex s) as [[texts rest]|];
    [|right; eexists; reflexivity].
  destruct texts as [|Y [|M [|D [|x texts]]]];
    try (right; eexists; reflexivity).
  destruct rest; [|right; eexists; reflexivity].
  destruct (_check_date_fields (int Y) (int M) (int D)) as [dt|e|] eqn:E.
  - left. exists dt. split; [reflexivity|].
    apply check_date_fields_return in E. destruct E as [Hc ->]. exact Hc.
  - right. revert E. unfold _check_date_fields.
    repeat match goal with
           | |- context [if ?b then _ else _] => destruct b
           end; intros [= <-]; eexists; reflexivity.
  - exfalso. revert E. unfold _check_date_fields.
    repeat match goal with
           | |- context [if ?b then _ else _] => destruct b
           end; discriminate.
Qed.

(** The year of a parsed date is the number its first four characters,
    all of them digits, stand for. *)
Lemma strptime_year (s : string) (dt : datetime) :
  strptime s = Return dt ->
  exists y1 y2 y3 y4 rest,
    s = String y1 (String y2 (String y3 (String y4 rest)))
    /\ is_digit y1 = true /\ is_digit y2 = true
    /\ is_digit y3 = true /\ is_digit y4 = true
    /\ year dt = 1000 * digit_val y1 + 100 * digit_val y2
                 + 10 * digit_val y3 + digit_val y4.
Proof.
  unfold strptime, format_regex.
  destruct s as [|y1 [|y2 [|y3 [|y4 rest]]]].
  1-4: cbn [regex_match group_Y match_alternative];
    repeat match goal with
           | |- context [if ?b then _ else _] => destruct b
           end; discriminate.
  change (regex_match (group_Y :: [group_m; group_d])
            (String y1 (String y2 (String y3 (String y4 rest)))))
    with (match match_alternative [is_digit; is_digit; is_digit; is_digit]
                  (String y1 (String y2 (String y3 (String y4 rest))))
          with
          | Some (text, rest) =>
              match regex_match [group_m; group_d] rest with
              | Some (texts, tail) => Some (text :: texts, tail)
              | None => None
              end
          | None => None
          end).
  cbn [match_alternative].
  destruct (is_digit y1) eqn:H1; [|discriminate].
  destruct (is_digit y2) eqn:H2; [|discriminate].
  destruct (is_digit y3) eqn:H3; [|discriminate].
  destruct (is_digit y4) eqn:H4; [|discriminate].
  destruct (regex_match [group_m; group_d] rest) as [[texts tail]|];
    [|discriminate].
  destruct texts as [|M [|D [|x texts]]]; try discriminate.
  destruct tail; [|discriminate].
  intros E. apply check_date_fields_return in E. destruct E as [_ ->].
  exists y1, y2, y3, y4, rest. repeat (split; [reflexivity || assumption|]).
  cbn [year]. rewrite int_digits by assumption. cbn [int_of_digits]. lia.
Qed.

(** What [strftime] renders of a day of the calendar in a year from 1000
    on is canonical. *)
Lemma strftime_canonical (y m d : Z) :
  calendar_date y m d = true ->
  canonical_date (zero_filled 4 y ++ zero_filled 2 m ++ zero_filled 2 d)
  = true.
Proof.
  intros Hcal. assert (H := Hcal). unfold calendar_date in H.
  rewrite !andb_true_iff, !Z.leb_le in H.
  pose proof (month_length_le_31 y m) as H31.
  cbn [zero_filled append].
  unfold canonical_date. cbn [forallb].
  repeat match goal with
         | |- context [digit_char (?k mod 10)] =>
             let Hd := fresh "Hd" in
             let Hv := fresh "Hv" in
             pose proof (Z.mod_pos_bound k 10 ltac:(lia));
             destruct (digit_char_range (k mod 10) ltac:(lia)) as [Hd Hv];
             rewrite ?Hd, ?Hv; clear Hd Hv
         end.
  cbn [andb].
  match goal with
  | |- calendar_date ?a ?b ?c = true =>
      replace a with y; [replace b with m; [replace c with d|]|]
  end; try exact Hcal; clear Hcal; Z.div_mod_to_equations; lia.
Qed.

Lemma validate_outcome (s : string) :
  validate_date_format s = Return tt
  \/ validate_date_format s
     = Raise (ValueError
                ("The date " ++ s ++ " is not in the correct format YYYYMMDD."))
  \/ validate_date_format s
     = Raise (ValueError
                ("The date " ++ s ++ " is not in the strict format YYYYMMDD.")).
Proof.
  unfold validate_date_format.
  destruct (strptime_outcome s) as [[dt [-> _]]|[msg ->]].
  - destruct (String.eqb (strftime dt) s); cbn [negb]; auto.
  - auto.
Qed.

(** What the validator lets through is a canonical date of a year from
    1000 on. *)
Lemma validated_date_four_digit_year (s : string) :
  validate_date_format s = Return tt ->
  canonical_date s = true /\ four_digit_year s = true.
Proof.
  unfold validate_date_format.
  destruct (strptime s) as [dt|e|] eqn:Hp;
    [|destruct e; discriminate|discriminate].
  destruct (String.eqb (strftime dt) s) eqn:E; cbn [negb]; [|discriminate].
  intros _. apply String.eqb_eq in E.
  destruct (strptime_outcome s) as [[dt' [Hp' Hcal]]|[msg Hp']];
    [|congruence].
  assert (dt' = dt) by congruence. subst dt'.
  destruct (strptime_year s dt Hp)
    as [y1 [y2 [y3 [y4 [rest [Hs [H1 [H2 [H3 [H4 Hy]]]]]]]]]].
  destruct dt as [y m d]. cbn [year month day] in *.
  assert (Hfields := Hcal). unfold calendar_date in Hfields.
  rewrite !andb_true_iff, !Z.leb_le in Hfields.
  destruct (digit_val_range y1 H1) as [R1 _].
  destruct (digit_val_range y2 H2) as [R2 _].
  destruct (digit_val_range y3 H3) as [R3 _].
  destruct (digit_val_range y4 H4) as [R4 _].
  pose proof (digit_val_zero y1 H1) as Hz.
  assert (Hf : four_digit_year s = true <-> 1000 <= y).
  { rewrite Hs. cbn [four_digit_year]. rewrite negb_true_iff.
    destruct (Ascii.eqb y1 "0").
    - split; [discriminate|]. intros Hge.
      assert (digit_val y1 = 0) by (apply Hz; reflexivity). lia.
    - split; [|reflexivity]. intros _.
      assert (digit_val y1 <> 0) by (intros E0; apply Hz in E0; discriminate E0).
      lia. }
  destruct (Z_lt_le_dec y 1000) as [Hlt|Hge].
  - exfalso.
    pose proof (strftime_small_year y m d ltac:(lia)) as Hsm.
    rewrite E in Hsm. apply Hf in Hsm. lia.
  - split; [|apply Hf, Hge].
    rewrite <- E, strftime_large_year by lia.
    apply strftime_canonical, Hcal.
Qed.

Lemma validated_date_canonical (s : string) :
  validate_date_format s = Return tt -> canonical_date s = true.
Proof. intros H. apply validated_date_four_digit_year, H. Qed.

(** C3.  The validator runs the text through [strptime] and compares it
    with what [strftime] renders of the parsed date.  It returns (with no
    value) exactly on the strings that are eight ASCII digits [YYYYMMDD]
    naming a day of the calendar whose first digit is not [0]; on every
    other string it raises a [ValueError].  ["20231201"] passes;
    ["2023-12-01"] and ["20231301"] are refused by the parse, and
    ["2023121"], which the parse reads as 2023-12-01, by the comparison.
    The canonical dates of the years 0001 to 0999 are refused too:
    ["09991231"] is parsed as 999-12-31, rendered ["9991231"], and raises
    the [ValueError] of the comparison. *)
Theorem validate_date_format_canonical :
  (forall s : string,
      (validate_date_format s = Return tt
       <-> canonical_date s = true /\ four_digit_year s = true)
      /\ (canonical_date s = true -> four_digit_year s = false ->
          validate_date_format s
          = Raise (ValueError
                     ("The date " ++ s
                      ++ " is not in the strict format YYYYMMDD.")))
      /\ (canonical_date s = false ->
          exists msg, validate_date_format s = Raise (ValueError msg)))
  /\ (canonical_date "09991231" = true
      /\ strptime "09991231" = Return (mkDatetime 999 12 31)
      /\ strftime (mkDatetime 999 12 31) = "9991231"
      /\ validate_date_format "09991231"
         = Raise (ValueError
                    "The date 09991231 is not in the strict format YYYYMMDD."))
  /\ validate_date_format "20231201" = Return tt
  /\ validate_date_format "2023-12-01"
     = Raise (ValueError
                "The date 2023-12-01 is not in the correct format YYYYMMDD.")
  /\ validate_date_format "20231301"
     = Raise (ValueError
                "The date 20231301 is not in the correct format YYYYMMDD.")
  /\ validate_date_format "2023121"
     = Raise (ValueError
                "The date 2023121 is not in the strict format YYYYMMDD.").
Proof.
  split; [|repeat split].
  intros s. split; [|split].
  - split; [apply validated_date_four_digit_year|].
    intros [Hc Hf]. apply canonical_date_accepted; assumption.
  - apply canonical_small_year_refused.
  - intros Hc.
    destruct (validate_outcome s) as [H|[H|H]]; [|eauto|eauto].
    apply validated_date_canonical in H. congruence.
Qed.

End DateValidator.

(* ================================================================== *)
(** * Further properties of the client *)
(* ================================================================== *)

Section Client.

(** One call of [get_data]: the exchange, the status check, then the
    body in the form asked for; the world has one more request. *)
Lemma get_data_run (self : ISONEClient) (endpoint : string)
    (params : option (list (string * string))) (file_format : string)
    (w : World) :
  get_data self endpoint params file_format w
  = (bind (remote w (get_request self endpoint params file_format))
       (fun response =>
          bind (raise_for_status response)
            (fun _ =>
               if String.eqb file_format "json"
               then bind (response_json response) (fun j => Return (Parsed j))
               else Return (RawText (text response)))),
     after_request w (get_request self endpoint params file_format)).
Proof.
  unfold get_data, io_bind, requests_get, lift, ret, after_request.
  fold (get_request self endpoint params file_format).
  destruct (remote w (get_request self endpoint params file_format))
    as [response|e|]; cbn [bind]; try reflexivity.
  destruct (raise_for_status response) as [[]|e|]; cbn [bind];
    try reflexivity.
  destruct (String.eqb file_format "json"); reflexivity.
Qed.

(** X1.  Whatever the endpoint, the query parameters, the format and the
    answer of the remote end (a response of any status, or a failed
    exchange), [get_data] sends one request and no more: a GET of
    [BASE_URL/endpoint.format] with the header [Accept:
    application/format], the credentials of the client and the
    parameters as given. *)
Theorem get_data_sends_one_request (self : ISONEClient) (endpoint : string)
    (params : option (list (string * string))) (file_format : string)
    (w : World) :
  sent (snd (get_data self endpoint params file_format w))
  = app (sent w)
      [mkRequest "GET"
         (BASE_URL ++ "/" ++ endpoint ++ "." ++ file_format)
         (client_auth self)
         [("Accept", "application/" ++ file_format)]
         params].
Proof. rewrite get_data_run. reflexivity. Qed.

(** X2.  When the remote end answers with a status from 400 to 599,
    [get_data] raises the [HTTPError] of that status, whatever the
    format asked for and whatever the body: no payload is returned and
    the body is not decoded. *)
Theorem get_data_error_status (self : ISONEClient) (endpoint : string)
    (params : option (list (string * string))) (file_format : string)
    (w : World) (response : Response) :
  remote w (get_request self endpoint params file_format) = Return response ->
  error_status response = true ->
  fst (get_data self endpoint params file_format w)
  = Raise (HTTPError (status_code response)).
Proof.
  intros Hr Hs. rewrite get_data_run. cbn [fst]. rewrite Hr. cbn [bind].
  unfold raise_for_status. unfold error_status in Hs. rewrite Hs.
  reflexivity.
Qed.

Lemma get_data_error_status_example :
  fst (get_data (mkISONEClient (mkHTTPBasicAuth "user123" "pass123"))
         "genfuelmix/day/20231201" None "json"
         (mkWorld (fun _ => None)
            (fun _ => Return (mkResponse 404 "Not Found" None)) []))
  = Raise (HTTPError 404).
Proof.
  apply (get_data_error_status
           (mkISONEClient (mkHTTPBasicAuth "user123" "pass123"))
           "genfuelmix/day/20231201" None "json"
           (mkWorld (fun _ => None)
              (fun _ => Return (mkResponse 404 "Not Found" None)) [])
           (mkResponse 404 "Not Found" None));
    reflexivity.
Defined.

(** X3.  For a format other than ["json"] and a status that is not an
    error, [get_data] returns the text of the response as it is; the body
    need not be JSON. *)
Theorem get_data_raw_text (self : ISONEClient) (endpoint : string)
    (params : option (list (string * string))) (file_format : string)
    (w : World) (response : Response) :
  file_format <> "json" ->
  remote w (get_request self endpoint params file_format) = Return response ->
  error_status response = false ->
  fst (get_data self endpoint params file_format w)
  = Return (RawText (text response)).
Proof.
  intros Hf Hr Hs. rewrite get_data_run. cbn [fst]. rewrite Hr. cbn [bind].
  unfold raise_for_status. unfold error_status in Hs. rewrite Hs.
  cbn [bind]. apply String.eqb_neq in Hf. rewrite Hf. reflexivity.
Qed.

Lemma get_data_raw_text_example :
  fst (get_data (mkISONEClient (mkHTTPBasicAuth "user123" "pass123"))
         "genfuelmix/day/20231201" None "xml"
         (mkWorld (fun _ => None)
            (fun _ => Return (mkResponse 200 "<GenFuelMixes/>" None)) []))
  = Return (RawText "<GenFuelMixes/>").
Proof.
  apply (get_data_raw_text
           (mkISONEClient (mkHTTPBasicAuth "user123" "pass123"))
           "genfuelmix/day/20231201" None "xml"
           (mkWorld (fun _ => None)
              (fun _ => Return (mkResponse 200 "<GenFuelMixes/>" None)) [])
           (mkResponse 200 "<GenFuelMixes/>" None));
    [intros H; discriminate H | reflexivity | reflexivity].
Defined.

(** X4.  [ISONEClient()] succeeds exactly when [API_USERNAME] and
    [API_PASSWORD] are both set and not empty, and the client then holds
    that pair as its basic authentication; otherwise it raises the
    [RuntimeError].  Either way nothing is sent and the world is as it
    was. *)
Theorem new_client_credentials (w : World) :
  snd (new_client w) = w
  /\ (forall client,
         fst (new_client w) = Return client
         <-> getenv w "API_USERNAME" = Some (username (client_auth client))
             /\ getenv w "API_PASSWORD" = Some (password (client_auth client))
             /\ username (client_auth client) <> ""
             /\ password (client_auth client) <> "")
  /\ ((forall client, fst (new_client w) <> Return client) ->
      fst (new_client w)
      = Raise (RuntimeError "API credentials are required but not set.")).
Proof.
  unfold new_client, io_bind, load_environment_secrets, ret, unset.
  destruct (getenv w "API_USERNAME") as [u|];
    destruct (getenv w "API_PASSWORD") as [p|]; cbn [orb].
  2-4: rewrite ?orb_true_r;
    (split; [reflexivity|]; split;
     [intros client; split; [discriminate | intros [H1 [H2 _]]; discriminate]
     | reflexivity]).
  destruct (String.eqb u "") eqn:Eu; destruct (String.eqb p "") eqn:Ep;
    cbn [orb fst snd].
  4: { apply String.eqb_neq in Eu, Ep.
       split; [reflexivity|]. split.
       - intros [[u' p']]. cbn [client_auth username password]. split.
         + intros [= <- <-]. auto.
         + intros [[= <-] [[= <-] _]]. reflexivity.
       - intros H. exfalso. eapply H. reflexivity. }
  all: split; [reflexivity|]; split; [|reflexivity];
    intros [[u' p']]; cbn [client_auth username password];
    (split; [discriminate|]); intros [[= <-] [[= <-] [Hu Hp]]];
    apply String.eqb_eq in Eu || apply String.eqb_eq in Ep; congruence.
Qed.

End Client.

(* ================================================================== *)
(** * Further properties of the retriever and of the descriptors *)
(* ================================================================== *)

Section Retriever.

(** X5.  For a day that is not a canonical date, [retrieve_data] raises
    the [ValueError] of the validator and sends nothing: the check comes
    before the exchange. *)
Theorem retrieve_data_invalid_day (self : DailyFuelMixDataRetriever)
    (day : string) (w : World) :
  canonical_date day = false ->
  exists msg,
    retrieve_data self day w = (Raise (ValueError msg), w).
Proof.
  intros Hc. cbn [retrieve_data DailyFuelMix_retriever].
  unfold daily_retrieve_data, io_bind, lift.
  destruct (validate_outcome day) as [H|[H|H]].
  - apply validated_date_canonical in H. congruence.
  - rewrite H. eexists. reflexivity.
  - rewrite H. eexists. reflexivity.
Qed.

Lemma retrieve_data_invalid_day_example :
  exists msg,
    retrieve_data
      (mkDailyFuelMixDataRetriever
         (mkISONEClient (mkHTTPBasicAuth "user123" "pass123")))
      "2023-12-01"
      (mkWorld (fun _ => None)
         (fun _ => Return (mkResponse 200 "{}" (Some (JDict [])))) [])
    = (Raise (ValueError msg),
       mkWorld (fun _ => None)
         (fun _ => Return (mkResponse 200 "{}" (Some (JDict [])))) []).
Proof.
  apply (retrieve_data_invalid_day
           (mkDailyFuelMixDataRetriever
              (mkISONEClient (mkHTTPBasicAuth "user123" "pass123")))
           "2023-12-01"
           (mkWorld (fun _ => None)
              (fun _ => Return (mkResponse 200 "{}" (Some (JDict [])))) [])).
  reflexivity.
Defined.

(** Once the validator has let the day through, [retrieve_data] is the
    one call of [get_data]. *)
Lemma retrieve_data_validated (self : DailyFuelMixDataRetriever)
    (day : string) (w : World) :
  validate_date_format day = Return tt ->
  retrieve_data self day w
  = get_data (api_client self) ("genfuelmix/day/" ++ day) None "json" w.
Proof.
  intros Hv. cbn [retrieve_data api_client DailyFuelMix_retriever].
  unfold daily_retrieve_data, io_bind at 1, lift at 1.
  rewrite Hv. reflexivity.
Qed.

(** X6.  For every canonical date of a year from 1000 on (eight digits,
    the first of them not [0]), [retrieve_data] is one [get_data] on
    [genfuelmix/day/<day>] asking for JSON with no query parameters: it
    sends the one GET of
    [https://webservices.iso-ne.com/api/v1.1/genfuelmix/day/<day>.json],
    and its outcome is that of the exchange, of the status check and of
    the decoding of the body. *)
Theorem retrieve_data_valid_day (self : DailyFuelMixDataRetriever)
    (day : string) (w : World) :
  canonical_date day = true ->
  four_digit_year day = true ->
  retrieve_data self day w
  = get_data (api_client self) ("genfuelmix/day/" ++ day) None "json" w
  /\ sent (snd (retrieve_data self day w))
     = app (sent w)
         [mkRequest "GET"
            ("https://webservices.iso-ne.com/api/v1.1/genfuelmix/day/"
             ++ day ++ ".json")
            (client_auth (api_client self))
            [("Accept", "application/json")]
            None]
  /\ fst (retrieve_data self day w)
     = bind (remote w
               (mkRequest "GET"
                  ("https://webservices.iso-ne.com/api/v1.1/genfuelmix/day/"
                   ++ day ++ ".json")
                  (client_auth (api_client self))
                  [("Accept", "application/json")]
                  None))
         (fun response =>
            bind (raise_for_status response)
              (fun _ =>
                 bind (response_json response) (fun j => Return (Parsed j)))).
Proof.
  intros Hc Hf.
  rewrite (retrieve_data_validated self day w
             (canonical_date_accepted day Hc Hf)).
  split; [reflexivity|].
  rewrite get_data_run. unfold get_request.
  cbn [api_client DailyFuelMix_retriever].
  change ("application/" ++ "json") with "application/json".
  replace (BASE_URL ++ "/" ++ ("genfuelmix/day/" ++ day) ++ "." ++ "json")
    with ("https://webservices.iso-ne.com/api/v1.1/genfuelmix/day/"
          ++ day ++ ".json")
    by (unfold BASE_URL; cbn [append]; reflexivity).
  split; reflexivity.
Qed.

Lemma retrieve_data_valid_day_example :
  retrieve_data
    (mkDailyFuelMixDataRetriever
       (mkISONEClient (mkHTTPBasicAuth "user123" "pass123")))
    "20240229"
    (mkWorld (fun _ => None)
       (fun _ => Return (mkResponse 200 "{}" (Some (JDict [])))) [])
  = get_data (mkISONEClient (mkHTTPBasicAuth "user123" "pass123"))
      "genfuelmix/day/20240229" None "json"
      (mkWorld (fun _ => None)
         (fun _ => Return (mkResponse 200 "{}" (Some (JDict [])))) []).
Proof.
  apply (proj1 (retrieve_data_valid_day
                  (mkDailyFuelMixDataRetriever
                     (mkISONEClient (mkHTTPBasicAuth "user123" "pass123")))
                  "20240229"
                  (mkWorld (fun _ => None)
                     (fun _ => Return (mkResponse 200 "{}" (Some (JDict []))))
                     [])
                  eq_refl eq_refl)).
Defined.

End Retriever.

Section Descriptors.

(** Text without braces is copied to the output. *)
Lemma format_from_text (pre rest out : string) (num : Str.numbering)
    (args : list Str.object) (kwargs : list (string * Str.object)) :
  brace_free pre = true ->
  Str.format_from Str.Text num out (pre ++ rest) args kwargs
  = Str.format_from Str.Text num (out ++ pre) rest args kwargs.
Proof.
  revert out; induction pre as [|c pre IH]; intros out H.
  - cbn [append]. rewrite append_empty_r. reflexivity.
  - cbn [brace_free all_chars] in H. apply andb_true_iff in H.
    destruct H as [Hc Hpre]. apply andb_true_iff in Hc.
    destruct Hc as [Ho Hcl]. apply negb_true_iff in Ho, Hcl.
    cbn [append Str.format_from]. rewrite Ho, Hcl.
    rewrite (IH _ Hpre), append_assoc. reflexivity.
Qed.

(** The characters of a name are gathered up to the closing brace. *)
Lemma format_from_field (name rest acc out : string) (num : Str.numbering)
    (args : list Str.object) (kwargs : list (string * Str.object)) :
  all_chars (fun c => negb (Ascii.eqb c "}") && negb (Str.special_char c))
    name = true ->
  Str.format_from (Str.InField acc) num out (name ++ String "}" rest)
    args kwargs
  = bind (Str.get_field args kwargs num (acc ++ name))
      (fun r => Str.format_from Str.Text (snd r) (out ++ fst r) rest
                  args kwargs).
Proof.
  revert acc; induction name as [|c name IH]; intros acc H.
  - cbn [append Str.format_from]. rewrite append_empty_r. reflexivity.
  - cbn [all_chars] in H. apply andb_true_iff in H.
    destruct H as [Hc Hname]. apply andb_true_iff in Hc.
    destruct Hc as [Hcl Hsp]. apply negb_true_iff in Hcl, Hsp.
    cbn [append Str.format_from]. rewrite Hcl, Hsp.
    rewrite (IH _ Hname), append_assoc. reflexivity.
Qed.

(** A named placeholder after brace-free text, with no keyword argument
    to fill it, ends the formatting with the [KeyError] of the name. *)
Lemma format_named_field_without_keywords (pre name post : string)
    (args : list Str.object) :
  brace_free pre = true ->
  keyword_name name = true ->
  Str.format (pre ++ String "{" (name ++ String "}" post)) args []
  = Raise (KeyError name).
Proof.
  intros Hpre Hname. unfold Str.format.
  rewrite format_from_text by exact Hpre.
  unfold keyword_name in Hname. rewrite !andb_true_iff in Hname.
  destruct Hname as [[Hne Hnd] Hchars].
  apply negb_true_iff in Hne, Hnd.
  destruct name as [|c name]; [discriminate Hne|].
  assert (Hc := Hchars). cbn [all_chars] in Hc.
  apply andb_true_iff in Hc. destruct Hc as [Hc Hrest].
  apply andb_true_iff in Hc. destruct Hc as [Hcl Hsp].
  apply negb_true_iff in Hcl, Hsp.
  assert (Hop : Ascii.eqb c "{" = false).
  { unfold Str.special_char in Hsp. rewrite !orb_false_iff in Hsp. tauto. }
  cbn [append Str.format_from Ascii.eqb Bool.eqb].
  rewrite Hop, Hcl, Hsp.
  rewrite format_from_field by exact Hrest.
  unfold Str.get_field. cbn [append]. rewrite Hne, Hnd. reflexivity.
Qed.

(** X7.  Whatever the descriptor, when the first placeholder of its
    template is a named one, [create_endpoint_url] raises the [KeyError]
    of that name for every value of [parameters] (and with none): the
    parameters never reach a named placeholder. *)
Theorem create_endpoint_url_named_placeholder (endpoint : APIEndpoint)
    (parameters : option json) (pre name post : string) :
  endpoint_url endpoint = pre ++ "{" ++ name ++ "}" ++ post ->
  brace_free pre = true ->
  keyword_name name = true ->
  create_endpoint_url endpoint parameters = Raise (KeyError name).
Proof.
  intros Hurl Hpre Hname. unfold create_endpoint_url. rewrite Hurl.
  apply format_named_field_without_keywords; assumption.
Qed.

Lemma create_endpoint_url_named_placeholder_example :
  create_endpoint_url
    (mkAPIEndpoint "fiveminutelmp/day/{day}/location/{locationId}"
       ["FiveMinLmps"; "FiveMinLmp"])
    (Some (JDict [("day", JStr "20231201"); ("locationId", JInt 4000)]))
  = Raise (KeyError "day").
Proof.
  apply (create_endpoint_url_named_placeholder
           (mkAPIEndpoint "fiveminutelmp/day/{day}/location/{locationId}"
              ["FiveMinLmps"; "FiveMinLmp"])
           (Some (JDict [("day", JStr "20231201"); ("locationId", JInt 4000)]))
           "fiveminutelmp/day/" "day" "/location/{locationId}");
    reflexivity.
Defined.

(** X8.  On a template without braces [create_endpoint_url] returns the
    template itself, whatever the parameters. *)
Theorem create_endpoint_url_no_placeholder (endpoint : APIEndpoint)
    (parameters : option json) :
  brace_free (endpoint_url endpoint) = true ->
  create_endpoint_url endpoint parameters = Return (endpoint_url endpoint).
Proof.
  intros H. unfold create_endpoint_url, Str.format.
  rewrite <- (append_empty_r (endpoint_url endpoint)) at 1.
  rewrite format_from_text by exact H. reflexivity.
Qed.

Lemma create_endpoint_url_no_placeholder_example :
  create_endpoint_url (mkAPIEndpoint "genfuelmix/current" ["GenFuelMixes"])
    (Some (JDict []))
  = Return "genfuelmix/current".
Proof.
  apply (create_endpoint_url_no_placeholder
           (mkAPIEndpoint "genfuelmix/current" ["GenFuelMixes"])
           (Some (JDict []))).
  reflexivity.
Defined.

(** X9.  The retriever of the daily fuel mix and the descriptor
    [DailyFuelMix] describe the same endpoint.  For every day the
    validator lets through (a canonical date of a year from 1000 on),
    the template of the descriptor with [day] filled in as a keyword
    argument gives a path, and [retrieve_data] is [get_data] on that very
    path: the request it sends is the GET of that path under the base
    URL, with the extension [.json].  The record path of the retriever is
    that of the descriptor. *)
Theorem retriever_matches_descriptor (self : DailyFuelMixDataRetriever)
    (day : string) (w : World) :
  canonical_date day = true ->
  four_digit_year day = true ->
  exists path,
    Str.format (endpoint_url DailyFuelMix) [] [("day", Str.Value (JStr day))]
    = Return path
    /\ retrieve_data self day w
       = get_data (api_client self) path None "json" w
    /\ sent (snd (retrieve_data self day w))
       = app (sent w)
           [mkRequest "GET" (BASE_URL ++ "/" ++ path ++ ".json")
              (client_auth (api_client self))
              [("Accept", "application/json")]
              None]
    /\ record_path self = json_payload_record_path DailyFuelMix.
Proof.
  intros Hc Hf. exists ("genfuelmix/day/" ++ day).
  split; [reflexivity|].
  rewrite (retrieve_data_validated self day w
             (canonical_date_accepted day Hc Hf)).
  split; [reflexivity|]. split; [|reflexivity].
  rewrite get_data_run. unfold get_request.
  cbn [api_client DailyFuelMix_retriever].
  reflexivity.
Qed.

Lemma retriever_matches_descriptor_example :
  exists path,
    Str.format (endpoint_url DailyFuelMix) []
      [("day", Str.Value (JStr "20231201"))]
    = Return path
    /\ retrieve_data
         (mkDailyFuelMixDataRetriever
            (mkISONEClient (mkHTTPBasicAuth "user123" "pass123")))
         "20231201"
         (mkWorld (fun _ => None)
            (fun _ => Return (mkResponse 200 "{}" (Some (JDict [])))) [])
       = get_data (mkISONEClient (mkHTTPBasicAuth "user123" "pass123"))
           path None "json"
           (mkWorld (fun _ => None)
              (fun _ => Return (mkResponse 200 "{}" (Some (JDict [])))) []).
Proof.
  destruct (retriever_matches_descriptor
              (mkDailyFuelMixDataRetriever
                 (mkISONEClient (mkHTTPBasicAuth "user123" "pass123")))
              "20231201"
              (mkWorld (fun _ => None)
                 (fun _ => Return (mkResponse 200 "{}" (Some (JDict [])))) [])
              eq_refl eq_refl) as [path [H1 [H2 _]]].
  exists path. split; [exact H1 | exact H2].
Defined.

End Descriptors.

(* ================================================================== *)
(** * Further properties of the parser *)
(* ================================================================== *)

Section Parser.

(** X10.  Traversal composes: when the first keys of a record path lead
    to [x] (each found truthy, in a mapping), parsing the document along
    the whole path is parsing [x] along the keys that remain. *)
Theorem parse_json_response_compose (document x : json)
    (before after : list string) :
  reaches document before x ->
  after <> [] ->
  parse_json_response document (Some (before ++ after)%list)
  = parse_json_response x (Some after).
Proof.
  intros Hr Hne.
  rewrite !parse_nonempty;
    [|exact Hne | destruct before; [exact Hne | discriminate]].
  rewrite walk_app, (walk_reaches _ _ _ Hr). reflexivity.
Qed.

Lemma parse_json_response_compose_example :
  parse_json_response
    (JDict [("GenFuelMixes",
             JDict [("GenFuelMix", JList [JDict [("GenMw", JInt 1)]])])])
    (Some ["GenFuelMixes"; "GenFuelMix"])
  = parse_json_response
      (JDict [("GenFuelMix", JList [JDict [("GenMw", JInt 1)]])])
      (Some ["GenFuelMix"]).
Proof.
  assert (Hne : ["GenFuelMix"] <> []) by (intros H; discriminate H).
  apply (parse_json_response_compose
           (JDict [("GenFuelMixes",
                    JDict [("GenFuelMix", JList [JDict [("GenMw", JInt 1)]])])])
           (JDict [("GenFuelMix", JList [JDict [("GenMw", JInt 1)]])])
           ["GenFuelMixes"] ["GenFuelMix"]);
    [|exact Hne].
  apply reaches_step; [reflexivity | apply reaches_here].
Defined.

End Parser.

Section Values.

Lemma NoDup_map_injective {A B : Type} (f : A -> B) (l : list A) (a b : A) :
  NoDup (map f l) -> In a l -> In b l -> f a = f b -> a = b.
Proof.
  induction l as [|x l IH]; simpl; intros Hnd Ha Hb Hf; [contradiction|].
  inversion Hnd as [|? ? Hx Hl]; subst.
  destruct Ha as [->|Ha]; destruct Hb as [->|Hb].
  - reflexivity.
  - exfalso. apply Hx. rewrite Hf. apply in_map, Hb.
  - exfalso. apply Hx. rewrite <- Hf. apply in_map, Ha.
  - apply IH; assumption.
Qed.

(** X13.  No field is shadowed when the field names of a record are
    pairwise distinct: along a non-empty record path that leads to an
    array of records, every field of such a record, however deeply
    nested, has a column of its dot-joined name, and the cell of the
    record under that column is the one computed from the value of this
    very field (as the dtype of the column renders it). *)
Theorem flatten_keeps_every_field (document : json)
    (record_path : list string) (records : list dict) (i : nat) (r : dict)
    (path : list string) (v : json) :
  record_path <> [] ->
  lookup_path document record_path = Some (JList (map JDict records)) ->
  nth_error records i = Some r ->
  NoDup (field_names r) ->
  In (path, v) (fields (JDict r)) ->
  exists df,
    parse_json_response document (Some record_path) = Return df
    /\ In (dot_joined path) (columns df)
    /\ cell_at df i (dot_joined path) = Some (From v).
Proof.
  intros Hne Hl Hi Hnd Hf.
  assert (Hrec : records <> []) by (intros ->; destruct i; discriminate Hi).
  rewrite parse_nonempty by assumption.
  rewrite (walk_lookup_path _ _ _ Hne Hl).
  assert (Ht : truthy (JList (map JDict records)) = true)
    by (destruct records; [contradiction | reflexivity]).
  rewrite Ht. cbn [bind]. rewrite json_normalize_records by assumption.
  set (flat := map (fun r => _normalise_json_ordered r ".") records).
  exists (frame_of_records flat). split; [reflexivity|].
  assert (Hname : In (dot_joined path) (field_names r)).
  { unfold field_names. apply in_map_iff. exists (path, v). auto. }
  assert (Hcol : In (dot_joined path) (columns (frame_of_records flat))).
  { apply columns_frame_of_records. exists (_normalise_json_ordered r ".").
    split.
    - subst flat.
      apply (in_map (fun r => _normalise_json_ordered r ".")),
        (nth_error_In _ _ Hi).
    - apply keys_normalise_json_ordered, Hname. }
  split; [exact Hcol|].
  assert (Hflat : nth_error flat i = Some (_normalise_json_ordered r "."))
    by (subst flat; rewrite nth_error_map, Hi; reflexivity).
  rewrite (cell_at_frame_of_records _ _ _ _ Hflat Hcol). unfold cell_of.
  apply keys_normalise_json_ordered in Hname.
  destruct (dict_lookup_some _ _ Hname) as [v' Hv']. rewrite Hv'.
  destruct (lookup_normalise_json_ordered _ _ _ Hv') as [path' [Hp' Hj]].
  assert (E : (path', v') = (path, v)).
  { apply (NoDup_map_injective (fun f => dot_joined (fst f))
             (fields (JDict r))); assumption. }
  injection E as _ ->. reflexivity.
Qed.

Lemma flatten_keeps_every_field_example :
  exists df,
    parse_json_response
      (JDict [("rows", JList [JDict [("a", JInt 1);
                                     ("b", JDict [("c", JStr "x")])]])])
      (Some ["rows"]) = Return df
    /\ In "b.c" (columns df)
    /\ cell_at df 0 "b.c" = Some (From (JStr "x")).
Proof.
  assert (Hne : ["rows"] <> []) by (intros H; discriminate H).
  assert (Hnd : NoDup (field_names [("a", JInt 1);
                                    ("b", JDict [("c", JStr "x")])])).
  { repeat constructor; simpl; intuition discriminate. }
  apply (flatten_keeps_every_field
           (JDict [("rows", JList [JDict [("a", JInt 1);
                                          ("b", JDict [("c", JStr "x")])]])])
           ["rows"]
           [[("a", JInt 1); ("b", JDict [("c", JStr "x")])]]
           0 [("a", JInt 1); ("b", JDict [("c", JStr "x")])]
           ["b"; "c"] (JStr "x") Hne eq_refl eq_refl Hnd).
  simpl. auto.
Defined.

Lemma normalise_flat_record (r : dict) :
  flat_record r = true -> _normalise_json_ordered r "." = r.
Proof.
  intros H. unfold _normalise_json_ordered, flat_record in *.
  assert (H1 : filter (fun kv => negb (is_dict (snd kv))) r = r).
  { induction r as [|kv r IH]; simpl in *; [reflexivity|].
    apply andb_true_iff in H. destruct H as [Hkv Hr].
    rewrite Hkv, (IH Hr). reflexivity. }
  assert (H2 : filter (fun kv => is_dict (snd kv)) r = []).
  { clear H1. induction r as [|kv r IH]; simpl in *; [reflexivity|].
    apply andb_true_iff in H. destruct H as [Hkv Hr].
    apply negb_true_iff in Hkv. rewrite Hkv. exact (IH Hr). }
  rewrite H1, H2. reflexivity.
Qed.

(** X14.  On records without nested mappings the two branches of the
    parser agree: the frame built along a non-empty record path that
    leads to such records is the frame built from the array itself with
    no record path. *)
Theorem flat_records_need_no_flattening (document : json)
    (record_path : list string) (records : list dict) :
  record_path <> [] ->
  records <> [] ->
  lookup_path document record_path = Some (JList (map JDict records)) ->
  forallb flat_record records = true ->
  parse_json_response document (Some record_path)
  = parse_json_response (JList (map JDict records)) None.
Proof.
  intros Hne Hrec Hl Hflat.
  rewrite parse_nonempty by assumption.
  rewrite (walk_lookup_path _ _ _ Hne Hl).
  assert (Ht : truthy (JList (map JDict records)) = true)
    by (destruct records; [contradiction | reflexivity]).
  rewrite Ht. cbn [bind]. rewrite json_normalize_records by assumption.
  assert (Hmap : map (fun r => _normalise_json_ordered r ".") records
                 = records).
  { rewrite <- (map_id records) at 2. apply map_ext_in. intros r Hr.
    apply normalise_flat_record.
    rewrite forallb_forall in Hflat. apply Hflat, Hr. }
  rewrite Hmap. cbn [parse_json_response]. unfold DataFrame_of.
  destruct records as [|r rest]; [contradiction|].
  change (map JDict (r :: rest)) with (JDict r :: map JDict rest).
  cbv iota.
  change (JDict r :: map JDict rest) with (map JDict (r :: rest)).
  rewrite as_records_map. reflexivity.
Qed.

Lemma flat_records_need_no_flattening_example :
  parse_json_response
    (JDict [("GenFuelMixes",
             JDict [("GenFuelMix",
                     JList [JDict [("GenMw", JInt 1); ("FuelCategory", JStr "Coal")];
                            JDict [("GenMw", JInt 2)]])])])
    (Some ["GenFuelMixes"; "GenFuelMix"])
  = parse_json_response
      (JList (map JDict [[("GenMw", JInt 1); ("FuelCategory", JStr "Coal")];
                         [("GenMw", JInt 2)]]))
      None.
Proof.
  assert (Hne : ["GenFuelMixes"; "GenFuelMix"] <> [])
    by (intros H; discriminate H).
  assert (Hrec : [[("GenMw", JInt 1); ("FuelCategory", JStr "Coal")];
                  [("GenMw", JInt 2)]] <> []) by (intros H; discriminate H).
  apply (flat_records_need_no_flattening
           (JDict [("GenFuelMixes",
                    JDict [("GenFuelMix",
                            JList [JDict [("GenMw", JInt 1);
                                          ("FuelCategory", JStr "Coal")];
                                   JDict [("GenMw", JInt 2)]])])])
           ["GenFuelMixes"; "GenFuelMix"]
           [[("GenMw", JInt 1); ("FuelCategory", JStr "Coal")];
            [("GenMw", JInt 2)]]
           Hne Hrec eq_refl eq_refl).
Defined.

End Values.

Section Script.

Lemma new_client_run (w : World) :
  new_client w
  = (if unset (getenv w "API_USERNAME") || unset (getenv w "API_PASSWORD")
     then Raise (RuntimeError "API credentials are required but not set.")
     else Return (mkISONEClient
                    (mkHTTPBasicAuth
                       (match getenv w "API_USERNAME" with
                        | Some u => u
                        | None => ""
                        end)
                       (match getenv w "API_PASSWORD" with
                        | Some p => p
                        | None => ""
                        end))),
     w).
Proof.
  unfold new_client, io_bind, load_environment_secrets, ret.
  destruct (unset (getenv w "API_USERNAME")
            || unset (getenv w "API_PASSWORD")); reflexivity.
Qed.

(** X15.  The example script end to end.  Without both credentials it
    stops on the [RuntimeError] before anything is sent.  With them, and
    an answer of a passing status whose JSON body holds a non-empty array
    of records under [GenFuelMixes] / [GenFuelMix], it sends the one
    request for 2023-12-01 with those credentials and ends with a frame
    of one row per record.  It never sends more than one request. *)
Theorem main_end_to_end (w : World) :
  (unset (getenv w "API_USERNAME") || unset (getenv w "API_PASSWORD") = true ->
   main w
   = (Raise (RuntimeError "API credentials are required but not set."), w))
  /\ (forall u p response body records,
         getenv w "API_USERNAME" = Some u ->
         getenv w "API_PASSWORD" = Some p ->
         u <> "" -> p <> "" ->
         remote w (fuel_mix_request_20231201 (mkHTTPBasicAuth u p))
         = Return response ->
         error_status response = false ->
         decoded response = Some body ->
         lookup_path body ["GenFuelMixes"; "GenFuelMix"]
         = Some (JList (map JDict records)) ->
         records <> [] ->
         exists df,
           main w
           = (Return df,
              after_request w
                (fuel_mix_request_20231201 (mkHTTPBasicAuth u p)))
           /\ nrows df = length records)
  /\ (sent (snd (main w)) = sent w
      \/ exists request, sent (snd (main w)) = (sent w ++ [request])%list).
Proof.
  unfold main, io_bind. rewrite new_client_run.
  destruct (unset (getenv w "API_USERNAME")
            || unset (getenv w "API_PASSWORD")) eqn:Hu.
  - split; [reflexivity|]. split; [|left; reflexivity].
    intros u p response body records Hgu Hgp Hne1 Hne2.
    rewrite Hgu, Hgp in Hu. cbn [unset] in Hu.
    apply String.eqb_neq in Hne1, Hne2. rewrite Hne1, Hne2 in Hu.
    discriminate Hu.
  - set (client := mkISONEClient _).
    assert (Hret : retrieve_data (mkDailyFuelMixDataRetriever client)
                     "20231201" w
                   = get_data client "genfuelmix/day/20231201" None "json" w).
    { cbn [retrieve_data DailyFuelMix_retriever].
      unfold daily_retrieve_data, io_bind at 1, lift at 1.
      rewrite validate_20231201. reflexivity. }
    rewrite Hret, get_data_run.
    change (get_request client "genfuelmix/day/20231201" None "json")
      with (fuel_mix_request_20231201 (client_auth client)).
    split; [discriminate|]. split.
    + intros u p response body records Hgu Hgp _ _ Hr Hs Hd Hl Hrec.
      subst client. rewrite Hgu, Hgp in *. cbn [client_auth] in *.
      rewrite Hr. cbn [bind]. unfold raise_for_status.
      unfold error_status in Hs. rewrite Hs. cbn [bind String.eqb Ascii.eqb
        Bool.eqb]. unfold response_json. rewrite Hd. cbn [bind].
      unfold lift. cbn [payload_value record_path DailyFuelMix_retriever].
      assert (Hne : ["GenFuelMixes"; "GenFuelMix"] <> [])
        by (intros H; discriminate H).
      rewrite parse_nonempty by exact Hne.
      rewrite (walk_lookup_path _ _ _ Hne Hl).
      assert (Ht : truthy (JList (map JDict records)) = true)
        by (destruct records; [contradiction | reflexivity]).
      rewrite Ht. cbn [bind]. rewrite json_normalize_records by assumption.
      eexists. split; [reflexivity|].
      rewrite nrows_frame_of_records. apply length_map.
    + right. exists (fuel_mix_request_20231201 (client_auth client)).
      destruct (bind (remote w _) _) as [pl|e|]; reflexivity.
Qed.

Lemma main_end_to_end_example :
  exists df,
    main (mkWorld
            (fun name =>
               if String.eqb name "API_USERNAME" then Some "user123"
               else if String.eqb name "API_PASSWORD" then Some "pass123"
               else None)
            (fun _ =>
               Return
                 (mkResponse 200 "..."
                    (Some (JDict [("GenFuelMixes",
                                   JDict [("GenFuelMix",
                                           JList [JDict [("GenMw", JInt 1)]])])]))))
            [])
    = (Return df,
       after_request
         (mkWorld
            (fun name =>
               if String.eqb name "API_USERNAME" then Some "user123"
               else if String.eqb name "API_PASSWORD" then Some "pass123"
               else None)
            (fun _ =>
               Return
                 (mkResponse 200 "..."
                    (Some (JDict [("GenFuelMixes",
                                   JDict [("GenFuelMix",
                                           JList [JDict [("GenMw", JInt 1)]])])]))))
            [])
         (fuel_mix_request_20231201 (mkHTTPBasicAuth "user123" "pass123")))
    /\ nrows df = 1%nat.
Proof.
  assert (H1 : "user123" <> "") by (intros H; discriminate H).
  assert (H2 : "pass123" <> "") by (intros H; discriminate H).
  assert (H3 : [[("GenMw", JInt 1)]] <> []) by (intros H; discriminate H).
  apply (proj1 (proj2 (main_end_to_end
           (mkWorld
              (fun name =>
                 if String.eqb name "API_USERNAME" then Some "user123"
                 else if String.eqb name "API_PASSWORD" then Some "pass123"
                 else None)
              (fun _ =>
                 Return
                   (mkResponse 200 "..."
                      (Some (JDict [("GenFuelMixes",
                                     JDict [("GenFuelMix",
                                             JList [JDict [("GenMw", JInt 1)]])])]))))
              []))) "user123" "pass123"
           (mkResponse 200 "..."
              (Some (JDict [("GenFuelMixes",
                             JDict [("GenFuelMix",
                                     JList [JDict [("GenMw", JInt 1)]])])])))
           (JDict [("GenFuelMixes",
                    JDict [("GenFuelMix", JList [JDict [("GenMw", JInt 1)]])])])
           [[("GenMw", JInt 1)]]
           eq_refl eq_refl H1 H2 eq_refl eq_refl eq_refl eq_refl H3).
Defined.

End Script.

Section LenientDates.

Local Open Scope Z_scope.

Lemma regex_month_single_day (m1 m2 d : ascii) :
  is_digit m1 = true -> is_digit m2 = true -> is_digit d = true ->
  1 <= 10 * digit_val m1 + digit_val m2 <= 12 ->
  1 <= digit_val d ->
  regex_match [group_m; group_d] (String m1 (String m2 (String d "")))
  = Some ([String m1 (String m2 ""); String d ""], "").
Proof.
  intros H1 H2 H3.
  apply is_digit_inv in H1, H2, H3. simpl in H1, H2, H3.
  intros Hm.
  repeat (destruct H1 as [<-|H1]; [|]); try contradiction;
  repeat (destruct H2 as [<-|H2]; [|]); try contradiction;
  try (exfalso; vm_compute in Hm; clear - Hm; intuition congruence);
  clear Hm; intros Hd;
  repeat (destruct H3 as [<-|H3]; [|]); try contradiction;
  try (exfalso; vm_compute in Hd; clear - Hd; congruence);
  reflexivity.
Qed.

(** X16.  The second check of the validator at work: for every canonical
    date whose day is [01] to [09], the seven characters left when the
    zero of the day is dropped are read by the parse as that same date,
    and refused with the error of the strict format. *)
Theorem validate_date_format_unpadded_day (y1 y2 y3 y4 m1 m2 d : ascii) :
  canonical_date
    (String y1 (String y2 (String y3 (String y4
       (String m1 (String m2 (String "0" (String d ""))))))))
  = true ->
  strptime
    (String y1 (String y2 (String y3 (String y4
       (String m1 (String m2 (String d "")))))))
  = strptime
      (String y1 (String y2 (String y3 (String y4
         (String m1 (String m2 (String "0" (String d ""))))))))
  /\ validate_date_format
       (String y1 (String y2 (String y3 (String y4
          (String m1 (String m2 (String d "")))))))
     = Raise (ValueError
                ("The date "
                 ++ String y1 (String y2 (String y3 (String y4
                      (String m1 (String m2 (String d ""))))))
                 ++ " is not in the strict format YYYYMMDD.")).
Proof.
  intros H. unfold canonical_date in H. cbn [forallb] in H.
  rewrite !andb_true_iff in H.
  destruct H as [[Hy1 [Hy2 [Hy3 [Hy4 [Hm1 [Hm2 [_ [Hd _]]]]]]]] Hcal].
  change (digit_val "0") with 0 in Hcal.
  set (y := 1000 * digit_val y1 + 100 * digit_val y2
            + 10 * digit_val y3 + digit_val y4) in *.
  set (m := 10 * digit_val m1 + digit_val m2) in *.
  replace (10 * 0 + digit_val d) with (digit_val d) in Hcal by lia.
  assert (Hfields := Hcal). unfold calendar_date in Hfields.
  rewrite !andb_true_iff, !Z.leb_le in Hfields.
  pose proof (month_length_le_31 y m) as H31.
  assert (Hsplit : forall rest,
             regex_match format_regex
               (String y1 (String y2 (String y3 (String y4 rest))))
             = match regex_match [group_m; group_d] rest with
               | Some (texts, tail) =>
                   Some (String y1 (String y2 (String y3 (String y4 "")))
                         :: texts, tail)
               | None => None
               end).
  { intros rest. unfold format_regex.
    change (regex_match (group_Y :: [group_m; group_d])
              (String y1 (String y2 (String y3 (String y4 rest)))))
      with (match match_alternative [is_digit; is_digit; is_digit; is_digit]
                    (String y1 (String y2 (String y3 (String y4 rest))))
            with
            | Some (text, rest') =>
                match regex_match [group_m; group_d] rest' with
                | Some (texts, tail) => Some (text :: texts, tail)
                | None => None
                end
            | None => None
            end).
    cbn [match_alternative]. rewrite Hy1, Hy2, Hy3, Hy4. reflexivity. }
  assert (Hshort : strptime
                     (String y1 (String y2 (String y3 (String y4
                        (String m1 (String m2 (String d "")))))))
                   = Return (mkDatetime y m (digit_val d))).
  { unfold strptime. rewrite Hsplit.
    rewrite regex_month_single_day by (assumption || (subst m; lia)).
    rewrite !int_digits by assumption.
    replace (int_of_digits 0
               (String y1 (String y2 (String y3 (String y4 "")))))
      with y by (subst y; cbn [int_of_digits]; lia).
    replace (int_of_digits 0 (String m1 (String m2 ""))) with m
      by (subst m; cbn [int_of_digits]; lia).
    replace (int_of_digits 0 (String d "")) with (digit_val d)
      by (cbn [int_of_digits]; lia).
    rewrite check_date_fields_calendar, Hcal. reflexivity. }
  assert (Hlong : strptime
                    (String y1 (String y2 (String y3 (String y4
                       (String m1 (String m2 (String "0" (String d ""))))))))
                  = Return (mkDatetime y m (digit_val d))).
  { unfold strptime. rewrite Hsplit.
    rewrite regex_month_day
      by (assumption || reflexivity
          || (subst m; change (digit_val "0") with 0; lia)).
    rewrite !int_digits by (assumption || reflexivity).
    replace (int_of_digits 0
               (String y1 (String y2 (String y3 (String y4 "")))))
      with y by (subst y; cbn [int_of_digits]; lia).
    replace (int_of_digits 0 (String m1 (String m2 ""))) with m
      by (subst m; cbn [int_of_digits]; lia).
    replace (int_of_digits 0 (String "0" (String d ""))) with (digit_val d)
      by (cbn [int_of_digits]; change (digit_val "0") with 0; lia).
    rewrite check_date_fields_calendar, Hcal. reflexivity. }
  split; [rewrite Hshort, Hlong; reflexivity|].
  unfold validate_date_format. rewrite Hshort.
  assert (Hneq : String.eqb (strftime (mkDatetime y m (digit_val d)))
                   (String y1 (String y2 (String y3 (String y4
                      (String m1 (String m2 (String d "")))))))
                 = false).
  { apply String.eqb_neq. intros E.
    destruct (Z_lt_le_dec y 1000) as [Hlt|Hge].
    - pose proof (strftime_small_year y m (digit_val d) ltac:(lia)) as Hsm.
      rewrite E in Hsm. cbn [four_digit_year] in Hsm.
      apply negb_true_iff in Hsm.
      destruct (digit_val_range y1 Hy1) as [R1 _].
      destruct (digit_val_range y2 Hy2) as [R2 _].
      destruct (digit_val_range y3 Hy3) as [R3 _].
      destruct (digit_val_range y4 Hy4) as [R4 _].
      assert (H0 : digit_val y1 = 0) by (subst y; lia).
      apply (digit_val_zero y1 Hy1) in H0. congruence.
    - rewrite strftime_large_year in E by lia.
      apply (f_equal String.length) in E.
      assert (Happ : forall a b,
                 String.length (a ++ b)
                 = (String.length a + String.length b)%nat).
      { induction a; intros b; simpl; [reflexivity | rewrite IHa; reflexivity]. }
      assert (Hlen : forall w n, String.length (zero_filled w n) = w).
      { induction w as [|w IHw]; intros n; [reflexivity|].
        cbn [zero_filled]. rewrite Happ, IHw. simpl. apply Nat.add_1_r. }
      rewrite !Happ, !Hlen in E. discriminate E. }
  rewrite Hneq. reflexivity.
Qed.

Lemma validate_date_format_unpadded_day_example :
  validate_date_format "2023121"
  = Raise (ValueError "The date 2023121 is not in the strict format YYYYMMDD.").
Proof.
  apply (proj2 (validate_date_format_unpadded_day
                  "2" "0" "2" "3" "1" "2" "1" eq_refl)).
Defined.

End LenientDates.

Section ColumnOrder.






End ColumnOrder.

Section LeapDay.

Local Open Scope Z_scope.

(** X18.  The 29th of February passes the validator exactly in leap
    years: for a year [YYYY] from 1000 on, [YYYY0229] is accepted when
    the year is a multiple of 4 and not of 100, or a multiple of 400, and
    refused otherwise. *)
Theorem validate_date_format_leap_day (y1 y2 y3 y4 : ascii) :
  forallb is_digit [y1; y2; y3; y4] = true ->
  1000 <= 1000 * digit_val y1 + 100 * digit_val y2
          + 10 * digit_val y3 + digit_val y4 ->
  (validate_date_format
     (String y1 (String y2 (String y3 (String y4 "0229"))))
   = Return tt
   <-> leap_year (1000 * digit_val y1 + 100 * digit_val y2
                  + 10 * digit_val y3 + digit_val y4) = true).
Proof.
  intros Hd Hy.
  set (y := 1000 * digit_val y1 + 100 * digit_val y2
            + 10 * digit_val y3 + digit_val y4) in *.
  cbn [forallb] in Hd. rewrite !andb_true_iff in Hd.
  destruct Hd as [H1 [H2 [H3 [H4 _]]]].
  destruct (digit_val_range y1 H1) as [R1 _].
  destruct (digit_val_range y2 H2) as [R2 _].
  destruct (digit_val_range y3 H3) as [R3 _].
  destruct (digit_val_range y4 H4) as [R4 _].
  assert (Hf : four_digit_year
                 (String y1 (String y2 (String y3 (String y4 "0229"))))
               = true).
  { cbn [four_digit_year]. apply negb_true_iff.
    destruct (Ascii.eqb y1 "0") eqn:E0; [|reflexivity].
    apply (digit_val_zero y1 H1) in E0. subst y. lia. }
  assert (Hc : canonical_date
                 (String y1 (String y2 (String y3 (String y4 "0229"))))
               = leap_year y).
  { unfold canonical_date. fold y. cbn [forallb].
    rewrite H1, H2, H3, H4.
    change (is_digit "0") with true. change (is_digit "2") with true.
    change (is_digit "9") with true. cbn [andb].
    change (10 * digit_val "0" + digit_val "2") with 2.
    change (10 * digit_val "2" + digit_val "9") with 29.
    unfold calendar_date, month_length. cbn [Z.eqb orb Pos.eqb].
    replace (1 <=? y) with true by (symmetry; apply Z.leb_le; lia).
    replace (y <=? 9999) with true
      by (symmetry; apply Z.leb_le; subst y; lia).
    destruct (leap_year y); reflexivity. }
  rewrite <- Hc. split.
  - apply validated_date_canonical.
  - intros Hcan. apply canonical_date_accepted; assumption.
Qed.

Lemma validate_date_format_leap_day_example :
  validate_date_format "20240229" = Return tt
  <-> leap_year (1000 * digit_val "2" + 100 * digit_val "0"
                 + 10 * digit_val "2" + digit_val "4") = true.
Proof.
  apply (validate_date_format_leap_day "2" "0" "2" "4" eq_refl).
  vm_compute. discriminate.
Defined.

End LeapDay.
